(** * tools/git_autocommit.py: the polling autocommit watcher

    A shallow embedding of [load_config], [run], [has_worktree_changes] and
    [main] of [tools/git_autocommit.py].

    - Python values read from the JSON configuration are an inductive type
      [pyval]; a [dict] is an association list in insertion order.
    - A Python [float] is an IEEE 754 binary64 number: the Standard
      Library's [spec_float] at precision 53 and maximal exponent 1024.
    - A Python [str] is a [string] whose characters are the code points
      below 256.
    - The operating system, the version-control tool and the clocks are a
      type class [Platform] over an abstract world; the program runs in a
      monad that threads the world, carries a raised exception, and writes
      the trace of what was printed, opened, run and slept.
    - In the script as a whole [print] succeeds, reading the file and
      running a command fail with an [Exception] only, and
      [KeyboardInterrupt] reaches the program in [time.sleep], where the
      watcher spends its time.  Module [Console] drops the first two for
      [run]: there the echo [print] can raise and the user can interrupt the
      command.
    - [while True] is run for a number of turns ([fuel]); what is proved
      about a turn holds for every turn. *)

From Stdlib Require Import ZArith NArith List String Ascii Bool Lia SpecFloat.
From Stdlib Require Import DecimalString.
Import ListNotations.

Local Open Scope string_scope.
Local Open Scope Z_scope.

(** ** Python strings *)

Module PyStr.

(** [str.isspace] on one character, for the code points below 256:
    U+0009..U+000D, U+001C..U+0020, U+0085 and U+00A0. *)
Definition isspace (c : ascii) : bool :=
  let n := N_of_ascii c in
  (((9 <=? n) && (n <=? 13)) || ((28 <=? n) && (n <=? 32))
   || (n =? 133) || (n =? 160))%N.

Fixpoint lstrip (s : string) : string :=
  match s with
  | EmptyString => EmptyString
  | String c s' => if isspace c then lstrip s' else s
  end.

Fixpoint rstrip (s : string) : string :=
  match s with
  | EmptyString => EmptyString
  | String c s' =>
      match rstrip s' with
      | EmptyString => if isspace c then EmptyString else String c EmptyString
      | r => String c r
      end
  end.

(** [s.strip()] *)
Definition strip (s : string) : string := rstrip (lstrip s).

(** [bool(s)]: a string is true when it is not empty. *)
Definition nonempty (s : string) : bool :=
  match s with EmptyString => false | String _ _ => true end.


(** The decimal numeral of a natural number, as [str(n)] prints it. *)
Definition decimal (n : N) : string := NilZero.string_of_uint (N.to_uint n).

Fixpoint zeros (k : nat) : string :=
  match k with O => EmptyString | S k' => String "0" (zeros k') end.

(** ["%0<width>d" % n] for a natural number. *)
Definition zero_pad (width : nat) (n : N) : string :=
  let d := decimal n in zeros (width - String.length d) ++ d.

End PyStr.

(** ** Python values and exceptions *)

#[warnings="-register-all"]
Inductive pyval : Type :=
| PNone
| PBool (b : bool)
| PInt (z : Z)
| PFloat (f : spec_float)
| PStr (s : string)
| PList (l : list pyval)
| PDict (d : list (pyval * pyval)).

(** A [dict]: its items in insertion order, no two keys equal. *)
Definition pydict : Type := list (pyval * pyval).

(** The classes of [Exception] the program can meet. *)
Inductive exc_class : Type :=
| FileNotFoundError
| TypeError
| ValueError
| OverflowError
| OtherException (name : string).

(** An instance of a subclass of [Exception]; [exc_text] is [str(e)]. *)
Record exception : Type := mkExc { exc_cls : exc_class; exc_text : string }.

(** What a [raise] can carry up the stack: the two [BaseException]s the
    program deals with, or an [Exception]. *)
Inductive raised : Type :=
| KeyboardInterrupt
| SystemExit (code : Z)
| Error (e : exception).

(** *** binary64 *)

Definition prec : Z := 53.
Definition emax : Z := 1024.

(** [float(z)] for an [int] that fits: round to nearest, ties to even. *)
Definition float_of_Z (z : Z) : spec_float := binary_normalize prec emax z 0 false.

Definition fzero : spec_float := S754_zero false.
Definition fsub : spec_float -> spec_float -> spec_float := SFsub prec emax.
Definition flt : spec_float -> spec_float -> bool := SFltb.
Definition fle : spec_float -> spec_float -> bool := SFleb.

Definition is_nan (f : spec_float) : bool :=
  match f with S754_nan => true | _ => false end.

(** [f == z] for a float and an int: Python compares the exact values. *)
Definition float_int_eqb (f : spec_float) (z : Z) : bool :=
  match f with
  | S754_zero _ => z =? 0
  | S754_finite s m e =>
      let v := if s then Z.neg m else Z.pos m in
      if 0 <=? e then z =? v * 2 ^ e
      else (v mod 2 ^ (- e) =? 0) && (z =? v / 2 ^ (- e))
  | _ => false
  end.

(** *** dict keys *)

Definition hashable (v : pyval) : bool :=
  match v with PList _ | PDict _ => false | _ => true end.

Definition int_of_bool (b : bool) : Z := if b then 1 else 0.

(** Equality of two hashable keys as [dict] decides it: [True == 1 == 1.0]
    is one key; the JSON decoder returns one shared [NaN] object, which
    the identity test of the lookup makes equal to itself. *)
Definition key_eqb (a b : pyval) : bool :=
  match a, b with
  | PNone, PNone => true
  | PStr s, PStr t => String.eqb s t
  | PBool x, PBool y => Bool.eqb x y
  | PBool x, PInt z | PInt z, PBool x => int_of_bool x =? z
  | PInt x, PInt y => x =? y
  | PBool x, PFloat f | PFloat f, PBool x => float_int_eqb f (int_of_bool x)
  | PInt z, PFloat f | PFloat f, PInt z => float_int_eqb f z
  | PFloat f, PFloat g => (is_nan f && is_nan g) || SFeqb f g
  | _, _ => false
  end.

(** [d.get(k)], [None] of [option] when the key is missing. *)
Fixpoint dict_get (d : pydict) (k : pyval) : option pyval :=
  match d with
  | [] => None
  | (k', v) :: d' => if key_eqb k' k then Some v else dict_get d' k
  end.

(** [d.get(k, default)] *)
Definition dict_get_default (d : pydict) (k : pyval) (default : pyval) : pyval :=
  match dict_get d k with Some v => v | None => default end.

(** [d[k] = v]: an existing key keeps its place and its key object. *)
Fixpoint dict_set (d : pydict) (k v : pyval) : pydict :=
  match d with
  | [] => [(k, v)]
  | (k', v') :: d' =>
      if key_eqb k' k then (k', v) :: d' else (k', v') :: dict_set d' k v
  end.

Definition dict_keys (d : pydict) : list pyval := map fst d.

(** The items of a [dict] written into [d] one after the other, as
    [d.update(other)] does for a mapping [other]. *)
Definition update_from_items (d : pydict) (items : list (pyval * pyval)) : pydict :=
  fold_left (fun acc kv => dict_set acc (fst kv) (snd kv)) items d.

(** Pure builtins either return or raise an [Exception]. *)
Definition result (A : Type) : Type := (exception + A)%type.

Definition type_name (v : pyval) : string :=
  match v with
  | PNone => "NoneType"
  | PBool _ => "bool"
  | PInt _ => "int"
  | PFloat _ => "float"
  | PStr _ => "str"
  | PList _ => "list"
  | PDict _ => "dict"
  end.

(** The characters of a string, each a string of length one. *)
Fixpoint chars (s : string) : list pyval :=
  match s with
  | EmptyString => []
  | String c s' => PStr (String c EmptyString) :: chars s'
  end.

(** [list(x)] for the values JSON yields; [None] when [x] is not iterable. *)
Definition py_iter (v : pyval) : option (list pyval) :=
  match v with
  | PStr s => Some (chars s)
  | PList l => Some l
  | PDict d => Some (dict_keys d)
  | _ => None
  end.

Definition dict_setitem (d : pydict) (k v : pyval) : result pydict :=
  if hashable k then inr (dict_set d k v)
  else inl (mkExc TypeError ("unhashable type: '" ++ type_name k ++ "'")).

(** [d.update(seq)] for a sequence of key/value pairs; [i] counts the
    elements already merged (messages of CPython 3.11). *)
Fixpoint update_from_pairs (d : pydict) (i : N) (elems : list pyval) : result pydict :=
  match elems with
  | [] => inr d
  | x :: rest =>
      match py_iter x with
      | None =>
          inl (mkExc TypeError
                 ("cannot convert dictionary update sequence element #"
                  ++ PyStr.decimal i ++ " to a sequence"))
      | Some [k; v] =>
          match dict_setitem d k v with
          | inr d' => update_from_pairs d' (i + 1) rest
          | inl e => inl e
          end
      | Some l =>
          inl (mkExc ValueError
                 ("dictionary update sequence element #" ++ PyStr.decimal i
                  ++ " has length " ++ PyStr.decimal (N.of_nat (List.length l))
                  ++ "; 2 is required"))
      end
  end.

(** [d.update(other)] for whatever [json.load] returned. *)
Definition dict_update (d : pydict) (other : pyval) : result pydict :=
  match other with
  | PDict items => inr (update_from_items d items)
  | PList l => update_from_pairs d 0 l
  | PStr s => update_from_pairs d 0 (chars s)
  | _ => inl (mkExc TypeError ("'" ++ type_name other ++ "' object is not iterable"))
  end.

(** [bool(v)] *)
Definition truthy (v : pyval) : bool :=
  match v with
  | PNone => false
  | PBool b => b
  | PInt z => negb (z =? 0)
  | PFloat (S754_zero _) => false
  | PFloat _ => true
  | PStr s => PyStr.nonempty s
  | PList [] => false
  | PList _ => true
  | PDict [] => false
  | PDict _ => true
  end.

(** ** datetime *)

(** A naive [datetime.datetime]. *)
Record datetime : Type := mkDatetime {
  year : N; month : N; day : N;
  hour : N; minute : N; second : N; microsecond : N }.


(** [d.replace(microsecond=0)] *)
Definition replace_microsecond_0 (d : datetime) : datetime :=
  mkDatetime (year d) (month d) (day d) (hour d) (minute d) (second d) 0.

(** [d.isoformat()] of a naive datetime: the fraction is printed only when
    the microseconds are not zero. *)
Definition isoformat (d : datetime) : string :=
  PyStr.zero_pad 4 (year d) ++ "-" ++ PyStr.zero_pad 2 (month d) ++ "-"
  ++ PyStr.zero_pad 2 (day d) ++ "T" ++ PyStr.zero_pad 2 (hour d) ++ ":"
  ++ PyStr.zero_pad 2 (minute d) ++ ":" ++ PyStr.zero_pad 2 (second d)
  ++ (if (microsecond d =? 0)%N then "" else "." ++ PyStr.zero_pad 6 (microsecond d)).

(** ** The module's constants *)

Definition k_enabled : pyval := PStr "enabled".
Definition k_delay_seconds : pyval := PStr "delay_seconds".
Definition k_debounce_seconds : pyval := PStr "debounce_seconds".
Definition k_commit_message : pyval := PStr "commit_message".
Definition k_branch : pyval := PStr "branch".
Definition k_push : pyval := PStr "push".
Definition k_include_untracked : pyval := PStr "include_untracked".

Definition DEFAULT_CONFIG : pydict :=
  [ (k_enabled, PBool true);
    (k_delay_seconds, PInt 2);
    (k_debounce_seconds, PInt 5);
    (k_commit_message, PStr "autosave: update");
    (k_branch, PStr "main");
    (k_push, PBool true);
    (k_include_untracked, PBool true) ].

(** [os.path.join(a, b)] on POSIX for a relative [b]. *)
Definition path_join (a b : string) : string :=
  match a with
  | EmptyString => b
  | _ => if String.eqb (substring (String.length a - 1) 1 a) "/"
         then a ++ b else a ++ "/" ++ b
  end.

Definition dquote : string := String (ascii_of_nat 34) EmptyString.
Definition newline : string := String (ascii_of_nat 10) EmptyString.

(** ** The platform

    Everything outside the script: where the module lives, the builtins
    whose text output is not modelled ([repr], the parser of [float(str)]),
    the file system with the JSON decoder, the shell, the two clocks, the
    console and [time.sleep].  An operation that can fail raises an
    [Exception]; the user's interrupt is delivered in [time.sleep], the
    suspension point of the loop. *)

(** The [CompletedProcess] of [subprocess.run(..., stdout=PIPE,
    stderr=STDOUT, text=True)]: [stdout] holds what the command wrote to
    standard output and standard error, in the order written. *)
Record completed : Type := mkCompleted { returncode : Z; stdout : string }.

Class Platform (W : Type) : Type := {
  (** [os.path.abspath(os.path.join(os.path.dirname(__file__), '..'))] *)
  ROOT : string;
  (** [repr(v)], which is [str(v)] for every value that is not a [str] *)
  py_repr : pyval -> string;
  (** the parser of [float(s)]; [None] when it raises [ValueError] *)
  float_of_str : string -> option spec_float;
  (** [with open(path, 'r', encoding='utf-8') as f: json.load(f)] *)
  open_json_load : string -> W -> result pyval * W;
  (** [subprocess.run(cmd, cwd=cwd, ..., shell=True)] *)
  subprocess_run : string -> string -> W -> result completed * W;
  (** what [time.time()] returns in this state of the world *)
  wall_clock : W -> spec_float;
  (** what [datetime.datetime.utcnow()] returns in this state *)
  utc_clock : W -> datetime;
  (** [print] of the arguments *)
  stdout_write : list pyval -> W -> W;
  (** [time.sleep(seconds)]; [Some e] when it raises [e] *)
  time_sleep : spec_float -> W -> option raised * W }.

(** What the program did to the outside, in order. *)
Inductive event : Type :=
| EPrint (args : list pyval)
| EOpen (path : string)
| ERun (cmd cwd : string)
| ESleep (seconds : spec_float).

(** Normal return or a raised exception. *)
Inductive res (A : Type) : Type :=
| Ok (a : A)
| Raise (e : raised).
Arguments Ok {A} a.
Arguments Raise {A} e.

(** How far [main] got. *)
Inductive outcome : Type :=
| Stopped                                   (* [main] returned *)
| Running (last_commit_time : spec_float).  (* still in [while True] *)

(** The local variables of [main] the loop reads. *)
Record settings : Type := mkSettings {
  cfg : pydict;
  delay : spec_float;
  debounce : spec_float;
  branch : pyval;
  push : bool;
  include_untracked : bool }.

Declare Scope py_scope.
Delimit Scope py_scope with py.

Section Program.

Context {W : Type} {P : Platform W}.

(** *** The monad: world in, result, world and trace out *)

Definition M (A : Type) : Type := W -> res A * W * list event.

Definition ret {A} (a : A) : M A := fun w => (Ok a, w, []).

Definition raise {A} (e : raised) : M A := fun w => (Raise e, w, []).

Definition bind {A B} (m : M A) (f : A -> M B) : M B :=
  fun w =>
    match m w with
    | (Ok a, w1, t1) => let '(r, w2, t2) := f a w1 in (r, w2, (t1 ++ t2)%list)
    | (Raise e, w1, t1) => (Raise e, w1, t1)
    end.

(** A pure builtin that may raise. *)
Definition lift {A} (r : result A) : M A :=
  match r with inr a => ret a | inl e => raise (Error e) end.

(** [try: body / except ...:] where [handler e] is the first clause
    that matches [e], if any. *)
Definition try_except {A} (body : M A) (handler : raised -> option (M A)) : M A :=
  fun w =>
    match body w with
    | (Raise e, w1, t1) =>
        match handler e with
        | Some h => let '(r, w2, t2) := h w1 in (r, w2, (t1 ++ t2)%list)
        | None => (Raise e, w1, t1)
        end
    | ok => ok
    end.

Notation "x <- m ;; k" := (bind m (fun x => k))
  (at level 61, m at next level, right associativity) : py_scope.
Notation "' pat <- m ;; k" := (bind m (fun x => match x with pat => k end))
  (at level 61, pat pattern, m at next level, right associativity) : py_scope.
Notation "m ;; k" := (bind m (fun _ => k))
  (at level 61, right associativity) : py_scope.
Local Open Scope py_scope.

(** *** The effects *)

Definition print (args : list pyval) : M unit :=
  fun w => (Ok tt, stdout_write args w, [EPrint args]).

Definition time_time : M spec_float := fun w => (Ok (wall_clock w), w, []).

Definition utcnow : M datetime := fun w => (Ok (utc_clock w), w, []).

Definition sleep (seconds : spec_float) : M unit :=
  fun w =>
    let (r, w') := time_sleep seconds w in
    (match r with None => Ok tt | Some e => Raise e end, w', [ESleep seconds]).

Definition json_load_file (path : string) : M pyval :=
  fun w =>
    let (r, w') := open_json_load path w in
    (match r with inr v => Ok v | inl e => Raise (Error e) end, w', [EOpen path]).

Definition subprocess (cmd cwd : string) : M completed :=
  fun w =>
    let (r, w') := subprocess_run cmd cwd w in
    (match r with inr c => Ok c | inl e => Raise (Error e) end, w', [ERun cmd cwd]).

(** *** Builtins that need the platform *)

(** [str(v)], what an f-string puts for [{v}]. *)
Definition py_str (v : pyval) : string :=
  match v with PStr s => s | _ => py_repr v end.

(** [float(v)] *)
Definition py_float (v : pyval) : result spec_float :=
  match v with
  | PFloat f => inr f
  | PBool b => inr (float_of_Z (int_of_bool b))
  | PInt z =>
      match float_of_Z z with
      | S754_infinity _ => inl (mkExc OverflowError "int too large to convert to float")
      | f => inr f
      end
  | PStr s =>
      match float_of_str s with
      | Some f => inr f
      | None => inl (mkExc ValueError
                       ("could not convert string to float: " ++ py_repr v))
      end
  | _ => inl (mkExc TypeError
                ("float() argument must be a string or a real number, not '"
                 ++ type_name v ++ "'"))
  end.

(** *** The script *)

Definition CONFIG_PATH : string :=
  path_join (path_join ROOT ".vscode") "autocommit.json".

Definition load_config : M pydict :=
  try_except
    (cfg <- json_load_file CONFIG_PATH ;;
     let d := DEFAULT_CONFIG in
     d <- lift (dict_update d cfg) ;;
     ret d)
    (fun ex =>
       match ex with
       | Error e =>
           match exc_cls e with
           | FileNotFoundError => Some (ret DEFAULT_CONFIG)
           | _ =>
               Some (print [PStr ("Failed to read config " ++ CONFIG_PATH
                                  ++ ": " ++ exc_text e)] ;;
                     ret DEFAULT_CONFIG)
           end
       | _ => None
       end).

Definition run (cmd : string) (cwd : string) : M (Z * string) :=
  print [PStr ("> " ++ cmd)] ;;
  try_except
    (completed <- subprocess cmd cwd ;;
     ret (returncode completed, PyStr.strip (stdout completed)))
    (fun ex =>
       match ex with
       | Error e => Some (ret (1, exc_text e))
       | _ => None
       end).

Definition status_cmd : string := "git status --porcelain".

Definition has_worktree_changes : M bool :=
  '(code, out) <- run status_cmd ROOT ;;
  if negb (code =? 0) then
    print [PStr "git status failed:"; PStr out] ;;
    ret false
  else ret (PyStr.nonempty (PyStr.strip out)).

Definition add_cmd : string := "git add -A".
Definition diff_cmd : string := "git diff --cached --name-only".

(** Lines 110 and 111: [ts] and [msg]. *)
Definition timestamp (now_utc : datetime) : string :=
  isoformat (replace_microsecond_0 now_utc) ++ "Z".

Definition commit_msg (cfg : pydict) (now_utc : datetime) : string :=
  py_str (dict_get_default cfg k_commit_message (PStr "autosave: update"))
  ++ " - " ++ timestamp now_utc.

Definition commit_cmd (msg : string) : string :=
  "git commit -m " ++ dquote ++ msg ++ dquote.

Definition push_cmd (branch : pyval) : string :=
  "git push origin " ++ py_str branch.

(** Lines 109 to 126 of the loop body: commit what is staged and, when
    the commit succeeds, note the time and push.  The result is the new
    value of [last_commit_time]. *)
Definition commit_and_push (s : settings) (last_commit_time : spec_float)
  : M spec_float :=
  now_utc <- utcnow ;;
  let msg := commit_msg (cfg s) now_utc in
  '(code, out) <- run (commit_cmd msg) ROOT ;;
  if negb (code =? 0) then
    print [PStr "git commit failed:"; PStr out] ;;
    ret last_commit_time
  else
    print [PStr "Committed:"; PStr msg] ;;
    last_commit_time <- time_time ;;
    (if push s then
       '(code, out) <- run (push_cmd (branch s)) ROOT ;;
       if negb (code =? 0) then
         print [PStr "git push failed:"; PStr out]
       else
         print [PStr "Pushed to origin"; branch s]
     else ret tt) ;;
    ret last_commit_time.

(** One turn of [while True], lines 82 to 128; the result is the value
    [last_commit_time] has when the next turn starts. *)
Definition iteration (s : settings) (last_commit_time : spec_float) : M spec_float :=
  changed <- has_worktree_changes ;;
  if changed then
    now <- time_time ;;
    if flt (fsub now last_commit_time) (debounce s) then
      print [PStr "Changes detected but debouncing..."] ;;
      sleep (delay s) ;;
      ret last_commit_time
    else
      '(code, out) <- run add_cmd ROOT ;;
      if negb (code =? 0) then
        print [PStr "git add failed:"; PStr out] ;;
        sleep (delay s) ;;
        ret last_commit_time
      else
        '(code, out) <- run diff_cmd ROOT ;;
        if negb (code =? 0) then
          print [PStr "git diff --cached failed:"; PStr out] ;;
          sleep (delay s) ;;
          ret last_commit_time
        else if negb (PyStr.nonempty (PyStr.strip out)) then
          print [PStr "Nothing staged to commit (skipping)."] ;;
          sleep (delay s) ;;
          ret last_commit_time
        else
          last_commit_time <- commit_and_push s last_commit_time ;;
          sleep (delay s) ;;
          ret last_commit_time
  else
    sleep (delay s) ;;
    ret last_commit_time.

(** [fuel] turns of the loop. *)
Fixpoint watch (fuel : nat) (s : settings) (last_commit_time : spec_float)
  : M spec_float :=
  match fuel with
  | O => ret last_commit_time
  | S n => t <- iteration s last_commit_time ;; watch n s t
  end.

(** Line 68: the [int] 0, which [now - last_commit_time] turns into the
    float [+0.0]. *)
Definition initial_last_commit_time : spec_float := fzero.

Definition main (fuel : nat) : M outcome :=
  cfg <- load_config ;;
  print [PStr "Auto-commit config:"; PDict cfg] ;;
  let last_commit_time := initial_last_commit_time in
  if negb (truthy (dict_get_default cfg k_enabled (PBool true))) then
    print [PStr "Autocommit is disabled in config. Exiting."] ;;
    raise (SystemExit 0)
  else
    delay <- lift (py_float (dict_get_default cfg k_delay_seconds (PInt 2))) ;;
    debounce <- lift (py_float (dict_get_default cfg k_debounce_seconds (PInt 5))) ;;
    let branch := dict_get_default cfg k_branch (PStr "main") in
    let push := truthy (dict_get_default cfg k_push (PBool true)) in
    let include_untracked :=
      truthy (dict_get_default cfg k_include_untracked (PBool true)) in
    try_except
      (t <- watch fuel (mkSettings cfg delay debounce branch push include_untracked)
                  last_commit_time ;;
       ret (Running t))
      (fun ex =>
         match ex with
         | KeyboardInterrupt =>
             Some (print [PStr (newline ++ "Autocommit watcher stopped by user.")] ;;
                   ret Stopped)
         | _ => None
         end).

(** The exit status of the process, once [main] is over. *)
Definition exit_status (r : res outcome) : option Z :=
  match r with
  | Ok Stopped => Some 0
  | Ok (Running _) => None
  | Raise (SystemExit code) => Some code
  | Raise _ => Some 1
  end.

End Program.

(** The commands a trace ran, in order. *)
Fixpoint commands_run (tr : list event) : list string :=
  match tr with
  | [] => []
  | ERun cmd _ :: tr' => cmd :: commands_run tr'
  | _ :: tr' => commands_run tr'
  end.

(** ** A scripted platform

    A world for running the script on concrete inputs: the configuration
    file's decoding, the answers of the next commands, the readings of the
    wall clock (one is used up by each command and each sleep) and what the
    next sleeps do are all listed in advance.  [repr] and the parser of
    [float(str)] are stand-ins. *)

Module Sim.

Record world : Type := mkWorld {
  config_file : result pyval;
  answers : list (result completed);
  times : list spec_float;
  utc : datetime;
  sleeps : list (option raised);
  console : list (list pyval) }.

Definition tick (w : world) : world :=
  mkWorld (config_file w) (answers w) (tl (times w)) (utc w) (sleeps w) (console w).

Definition sim_run (cmd cwd : string) (w : world) : result completed * world :=
  let w' := tick w in
  match answers w with
  | [] => (inr (mkCompleted 0 ""), w')
  | a :: rest =>
      (a, mkWorld (config_file w') rest (times w') (utc w') (sleeps w') (console w'))
  end.

Definition sim_sleep (seconds : spec_float) (w : world) : option raised * world :=
  let w' := tick w in
  match sleeps w with
  | [] => (Some KeyboardInterrupt, w')
  | r :: rest =>
      (r, mkWorld (config_file w') (answers w') (times w') (utc w') rest (console w'))
  end.

Definition sim_print (args : list pyval) (w : world) : world :=
  mkWorld (config_file w) (answers w) (times w) (utc w) (sleeps w)
          (console w ++ [args]).

#[global] Instance platform : Platform world := {|
  ROOT := "/workspaces/teach_";
  py_repr := fun v => "<" ++ type_name v ++ ">";
  float_of_str := fun _ => None;
  open_json_load := fun _ w => (config_file w, w);
  subprocess_run := sim_run;
  wall_clock := fun w => hd fzero (times w);
  utc_clock := utc;
  stdout_write := sim_print;
  time_sleep := sim_sleep |}.

Definition no_file : result pyval :=
  inl (mkExc FileNotFoundError "[Errno 2] No such file or directory").

End Sim.

(** ** Vocabulary of the statements *)

Section Vocabulary.

Context {W : Type} {P : Platform W}.

(** What [run cmd cwd] returns in world [w], and the world it leaves. *)
Definition run_value (cmd cwd : string) (w : W) : Z * string :=
  match fst (subprocess_run cmd cwd (stdout_write [PStr ("> " ++ cmd)] w)) with
  | inr c => (returncode c, PyStr.strip (stdout c))
  | inl e => (1, exc_text e)
  end.

Definition run_world (cmd cwd : string) (w : W) : W :=
  snd (subprocess_run cmd cwd (stdout_write [PStr ("> " ++ cmd)] w)).

Definition run_trace (cmd cwd : string) : list event :=
  [EPrint [PStr ("> " ++ cmd)]; ERun cmd cwd].

(** The same for [time.sleep]. *)
Definition sleep_value (seconds : spec_float) (w : W) : res unit :=
  match fst (time_sleep seconds w) with None => Ok tt | Some e => Raise e end.

Definition sleep_world (seconds : spec_float) (w : W) : W :=
  snd (time_sleep seconds w).

(** The end of a turn of the loop, reached in world [w] with trace [tr]:
    sleep, and go on with [v] for [last_commit_time] unless the sleep
    raises. *)
Definition turn_end (s : settings) (v : spec_float) (w : W) (tr : list event)
  : res spec_float * W * list event :=
  (match sleep_value (delay s) w with Ok _ => Ok v | Raise e => Raise e end,
   sleep_world (delay s) w, (tr ++ [ESleep (delay s)])%list).

(** What [load_config] prints when reading the file fails with [e]. *)
Definition failure_line (e : exception) : list pyval :=
  [PStr ("Failed to read config " ++ CONFIG_PATH ++ ": " ++ exc_text e)].

Definition is_file_not_found (e : exception) : bool :=
  match exc_cls e with FileNotFoundError => true | _ => false end.


(** The five shapes of command the loop builds. *)
Definition loop_command (s : settings) (c : string) : Prop :=
  c = status_cmd \/ c = add_cmd \/ c = diff_cmd \/
  c = push_cmd (branch s) \/
  exists w, c = commit_cmd (commit_msg (cfg s) (utc_clock w)).

End Vocabulary.

(** The value a list of items gives a key: the last item with that key.
    For the items of a [dict], which holds a key once, this is the key's
    value; for the members of a JSON object that repeats a name it is what
    [json.load] keeps. *)
Fixpoint item_value (items : list (pyval * pyval)) (k : pyval) : option pyval :=
  match items with
  | [] => None
  | (k', v) :: rest =>
      match item_value rest k with
      | Some v' => Some v'
      | None => if key_eqb k' k then Some v else None
      end
  end.

(** The merge as the specification words it: the defaults, overridden by
    the keys the file has, and by nothing else. *)
Definition defaults_overridden_by (items : list (pyval * pyval)) (k : pyval)
  : option pyval :=
  match item_value items k with
  | Some v => Some v
  | None => dict_get DEFAULT_CONFIG k
  end.

(** *** A matcher for the patterns of fixed width *)








(** *** Worlds of the scripted platform used below *)

Module Scenario.

Import Sim.

Definition f (z : Z) : spec_float := float_of_Z z.

Definition noon : datetime := mkDatetime 2024 1 2 12 0 0 250000.

Definition done (out : string) : result completed := inr (mkCompleted 0 out).

Definition modified : string := " M notes.txt" ++ newline.

(** No configuration file; a file is modified; every command succeeds;
    the clock reads 1000 s, then 1001 s, ...; the second sleep is
    interrupted. *)
Definition busy : world :=
  mkWorld no_file
          [done modified; done ""; done ("notes.txt" ++ newline);
           done "[main 1a2b3c4] autosave"; done "To origin"]
          [f 1000; f 1001; f 1002; f 1003; f 1004; f 1005; f 1006; f 1007]
          noon [None] [].


(** A change is seen, staging succeeds, and nothing is staged. *)
Definition nothing_staged : world :=
  mkWorld no_file [done modified; done ""; done ""]
          [f 1000; f 1001; f 1002; f 1003] noon [None] [].

(** The configuration file holds [{"enabled": false, "branch": "dev"}]. *)
Definition disabled : world :=
  mkWorld (inr (PDict [(k_enabled, PBool false); (k_branch, PStr "dev")]))
          [done modified] [f 1000; f 1001] noon [None] [].


(** Nothing to see on the first turn; a file is modified by the second. *)
Definition quiet_then_busy : world :=
  mkWorld no_file [done ""; done modified; done ""; done "notes.txt"]
          [f 1000; f 1001; f 1002; f 1003; f 1004; f 1005] noon
          [None; None] [].

Definition defaults : settings :=
  mkSettings DEFAULT_CONFIG (f 2) (f 5) (PStr "main") true true.

End Scenario.

(** The durations a trace slept, in order. *)
Fixpoint sleeps (tr : list event) : list spec_float :=
  match tr with
  | [] => []
  | ESleep d :: tr' => d :: sleeps tr'
  | _ :: tr' => sleeps tr'
  end.

(** The values [json.load] returns for [null], a boolean or a number. *)
Definition json_scalar (v : pyval) : bool :=
  match v with
  | PNone | PBool _ | PInt _ | PFloat _ => true
  | _ => false
  end.

(** *** Further worlds of the scripted platform *)

Module Cases.

Import Sim.

(** The status query is killed before it writes anything. *)
Definition status_fails : world :=
  mkWorld no_file [inr (mkCompleted (-9) "")]
          [Scenario.f 1000; Scenario.f 1001] Scenario.noon [None] [].



(** Nothing changed and the user interrupts the first sleep. *)
Definition interrupted : world :=
  mkWorld no_file
          [Scenario.done ""]
          [Scenario.f 1000; Scenario.f 1001; Scenario.f 1002] Scenario.noon
          [Some KeyboardInterrupt] [].

(** Three quiet turns. *)
Definition quiet : world :=
  mkWorld no_file [] [Scenario.f 1000] Scenario.noon [None; None; None] [].

(** The configuration file holds [{"delay_seconds": null}]. *)
Definition null_delay : world :=
  mkWorld (inr (PDict [(k_delay_seconds, PNone)])) [] [Scenario.f 1000]
          Scenario.noon [None] [].


(** The configuration file holds [{"editor": "vim", "push": false}]. *)
Definition unknown_key : world :=
  mkWorld (inr (PDict [(PStr "editor", PStr "vim"); (k_push, PBool false)])) []
          [Scenario.f 1000] Scenario.noon [None] [].

(** The configuration file holds [42]. *)
Definition number_config : world :=
  mkWorld (inr (PInt 42)) [] [Scenario.f 1000] Scenario.noon [None] [].

(** The defaults with a debounce that is not a number. *)
Definition nan_debounce : settings :=
  mkSettings DEFAULT_CONFIG (Scenario.f 2) S754_nan (PStr "main") true true.

End Cases.

(** *** The commits of a run *)

Section Commits.

Context {W : Type} {P : Platform W}.

(** The world in which the turn started in [w] issues its commit command,
    when it gets that far: a change is detected, the debounce test is
    passed, the staging and the staged-diff query return status zero and
    the query's text is not blank. *)
Definition commit_point (s : settings) (last_commit_time : spec_float) (w : W)
  : option W :=
  match has_worktree_changes w with
  | (Ok true, w1, _) =>
      if flt (fsub (wall_clock w1) last_commit_time) (debounce s) then None
      else if negb (fst (run_value add_cmd ROOT w1) =? 0) then None
      else
        let w2 := run_world add_cmd ROOT w1 in
        if negb (fst (run_value diff_cmd ROOT w2) =? 0) then None
        else if negb (PyStr.nonempty (PyStr.strip (snd (run_value diff_cmd ROOT w2))))
             then None
             else Some (run_world diff_cmd ROOT w2)
  | _ => None
  end.

(** The time of the successful commit of the turn started in [w], if the
    turn makes one: the commit command returns status zero, and the time is
    what the clock reads once that success has been printed. *)
Definition commit_time (s : settings) (last_commit_time : spec_float) (w : W)
  : option spec_float :=
  match commit_point s last_commit_time w with
  | Some w3 =>
      let msg := commit_msg (cfg s) (utc_clock w3) in
      if fst (run_value (commit_cmd msg) ROOT w3) =? 0
      then Some (wall_clock (stdout_write [PStr "Committed:"; PStr msg]
                               (run_world (commit_cmd msg) ROOT w3)))
      else None
  | None => None
  end.

(** The time of the last successful commit among the first [n] turns of
    the loop started in [w] with [last_commit_time], if any of them made
    one. *)
Fixpoint last_commit (s : settings) (n : nat) (last_commit_time : spec_float) (w : W)
  : option spec_float :=
  match n with
  | O => None
  | S n' =>
      let here := commit_time s last_commit_time w in
      let t := match here with Some T => T | None => last_commit_time end in
      match last_commit s n' t (snd (fst (iteration s last_commit_time w))) with
      | Some T => Some T
      | None => here
      end
  end.

End Commits.

(** ** The console and the interrupt, for [run]

    [Platform] lets [print] succeed always and [subprocess.run] fail with
    an [Exception] only.  This module takes both restrictions away for
    [run]: the echo of line 49 may raise, as [print] does when the console
    cannot encode what it is given, and the user's interrupt may arrive
    while the command runs. *)

Module Console.

Class Hazards (W : Type) : Type := {
  (** [Some (e, w')] when [print] of these arguments raises [e] and leaves
      the world [w'] *)
  print_raises : list pyval -> W -> option (exception * W);
  (** [Some w'] when the user interrupts [subprocess.run], which then
      raises [KeyboardInterrupt] and leaves the world [w'] *)
  run_interrupted : string -> string -> W -> option W }.

Section Run.

Context {W : Type} {P : Platform W} {H : Hazards W}.

Definition print (args : list pyval) : M unit :=
  fun w =>
    match print_raises args w with
    | Some (e, w') => (Raise (Error e), w', [EPrint args])
    | None => (Ok tt, stdout_write args w, [EPrint args])
    end.

Definition subprocess (cmd cwd : string) : M completed :=
  fun w =>
    match run_interrupted cmd cwd w with
    | Some w' => (Raise KeyboardInterrupt, w', [ERun cmd cwd])
    | None =>
        let (r, w') := subprocess_run cmd cwd w in
        (match r with inr c => Ok c | inl e => Raise (Error e) end, w',
         [ERun cmd cwd])
    end.

(** Lines 47 to 54, the echo outside the [try]. *)
Definition run (cmd : string) (cwd : string) : M (Z * string) :=
  bind (print [PStr ("> " ++ cmd)])
       (fun _ =>
          try_except
            (bind (subprocess cmd cwd)
                  (fun completed =>
                     ret (returncode completed, PyStr.strip (stdout completed))))
            (fun ex =>
               match ex with
               | Error e => Some (ret (1, exc_text e))
               | _ => None
               end)).

(** [run] returns in [w]: it does not raise. *)
Definition returns (cmd cwd : string) (w : W) : Prop :=
  exists v w' tr, run cmd cwd w = (Ok v, w', tr).

End Run.

Fixpoint is_ascii (s : string) : bool :=
  match s with
  | EmptyString => true
  | String c s' => (N_of_ascii c <? 128)%N && is_ascii s'
  end.

Definition printable_in_ascii (v : pyval) : bool :=
  match v with PStr s => is_ascii s | _ => true end.

(** The scripted platform behind a console whose encoding is ASCII:
    printing a string with a character above U+007F raises
    [UnicodeEncodeError]; commands are not interrupted. *)
Definition ascii_console : Hazards Sim.world := {|
  print_raises := fun args w =>
    if forallb printable_in_ascii args then None
    else Some (mkExc (OtherException "UnicodeEncodeError")
                     "'ascii' codec can't encode character: ordinal not in range(128)",
               w);
  run_interrupted := fun _ _ _ => None |}.

(** [echo caf] followed by e with an acute accent, U+00E9. *)
Definition echo_cafe : string :=
  "echo caf" ++ String (ascii_of_nat 233) EmptyString.

End Console.

(** ** A scripted platform whose clock stands still *)

Module Steady.

Definition platform : Platform Sim.world := {|
  ROOT := "/workspaces/teach_";
  py_repr := fun v => "<" ++ type_name v ++ ">";
  float_of_str := fun _ => None;
  open_json_load := fun _ w => (Sim.config_file w, w);
  subprocess_run := Sim.sim_run;
  wall_clock := fun _ => Scenario.f 1000;
  utc_clock := Sim.utc;
  stdout_write := Sim.sim_print;
  time_sleep := Sim.sim_sleep |}.

End Steady.

(** *** Runs of several turns on the scripted platform *)

Module Runs.

Import Sim.

Definition committing_answers : list (result completed) :=
  [Scenario.done Scenario.modified; Scenario.done "";
   Scenario.done ("notes.txt" ++ newline);
   Scenario.done "[main 1a2b3c4] autosave"; Scenario.done "To origin";
   Scenario.done Scenario.modified; Scenario.done "";
   Scenario.done ("notes.txt" ++ newline);
   Scenario.done "[main 5d6e7f8] autosave"; Scenario.done "To origin"].

(** The first turn commits at 1004 s; the second sees a change at 1007 s. *)
Definition change_soon_after_commit : world :=
  mkWorld no_file committing_answers
          (map Scenario.f [1000; 1001; 1002; 1003; 1004; 1005; 1006; 1007; 1008])
          Scenario.noon [None; None] [].

(** The first turn commits at 1004 s; the second sees a change at 1010 s. *)
Definition change_long_after_commit : world :=
  mkWorld no_file committing_answers
          (map Scenario.f [1000; 1001; 1002; 1003; 1004; 1005; 1006; 1010; 1011;
                           1012; 1013; 1014; 1015])
          Scenario.noon [None; None] [].


End Runs.

(** * Facts *)

(** ** Strings *)

Module PyStrFacts.

Import PyStr.







Lemma nonempty_false (s : string) : nonempty s = false <-> s = EmptyString.
Proof. destruct s; simpl; split; congruence. Qed.

Lemma strip_of_empty_strip (s : string) :
  s = EmptyString -> nonempty (strip s) = false.
Proof. intros ->. reflexivity. Qed.

End PyStrFacts.

(** ** binary64 comparisons *)

Lemma SFcompare_swap (a b : spec_float) :
  SFcompare b a = option_map CompOpp (SFcompare a b).
Proof.
  destruct a as [sa|sa| |sa ma ea], b as [sb|sb| |sb mb eb];
    try destruct sa; try destruct sb; simpl; try reflexivity;
    rewrite (Z.compare_antisym ea eb);
    pose proof (Pos.compare_cont_antisym ma mb Eq) as A; simpl in A;
    rewrite <- A;
    destruct (ea ?= eb); destruct (Pos.compare_cont Eq ma mb); reflexivity.
Qed.

(** [a <= b] excludes [b < a]. *)
Lemma fle_not_flt (a b : spec_float) : fle a b = true -> flt b a = false.
Proof.
  unfold fle, flt, SFleb, SFltb. rewrite (SFcompare_swap a b).
  destruct (SFcompare a b) as [[| |]|]; simpl; congruence.
Qed.

(** Subtracting [+0.0] changes at most the sign of a zero, which no
    comparison sees. *)
Lemma SFcompare_sub_zero (x d : spec_float) :
  SFcompare (fsub x fzero) d = SFcompare x d.
Proof.
  destruct x as [s|s| |s m e]; try destruct s; destruct d; reflexivity.
Qed.

Lemma flt_sub_zero (x d : spec_float) : flt (fsub x fzero) d = flt x d.
Proof. unfold flt, SFltb. rewrite SFcompare_sub_zero. reflexivity. Qed.

(** ** dict *)

Lemma key_eqb_str_inv (x : pyval) (s : string) :
  key_eqb x (PStr s) = true -> x = PStr s.
Proof.
  destruct x; simpl; try discriminate.
  intro H. apply String.eqb_eq in H. congruence.
Qed.

Lemma key_eqb_str_refl (s : string) : key_eqb (PStr s) (PStr s) = true.
Proof. simpl. apply String.eqb_refl. Qed.

(** Lookup after [d[s] = v] for a string key [s]. *)
Lemma dict_get_set_str (d : pydict) (s : string) (v k : pyval) :
  dict_get (dict_set d (PStr s) v) k
  = if key_eqb (PStr s) k then Some v else dict_get d k.
Proof.
  induction d as [|[k' v'] d IH]; cbn [dict_get dict_set].
  - reflexivity.
  - destruct (key_eqb k' (PStr s)) eqn:E; cbn [dict_get].
    + apply key_eqb_str_inv in E. subst k'.
      destruct (key_eqb (PStr s) k); reflexivity.
    + rewrite IH.
      destruct (key_eqb k' k) eqn:E'; [|reflexivity].
      destruct (key_eqb (PStr s) k) eqn:E''; [|reflexivity].
      exfalso. destruct k; simpl in E''; try discriminate.
      apply String.eqb_eq in E''. subst s0. congruence.
Qed.

Lemma dict_keys_set_present (d : pydict) (s : string) (v : pyval) :
  In (PStr s) (dict_keys d) -> dict_keys (dict_set d (PStr s) v) = dict_keys d.
Proof.
  induction d as [|[k' v'] d IH]; simpl; [tauto|].
  intros [H|H].
  - subst k'. rewrite key_eqb_str_refl. reflexivity.
  - destruct (key_eqb k' (PStr s)); simpl; [reflexivity|].
    rewrite IH by exact H. reflexivity.
Qed.





(** The merge of the items of a mapping whose keys are strings that the
    target already has: key by key, and the key set stays. *)
Lemma update_from_items_get (items : list (pyval * pyval)) (d : pydict) (k : pyval) :
  (forall x, In x (dict_keys items) -> exists s, x = PStr s) ->
  dict_get (update_from_items d items) k
  = match item_value items k with Some v => Some v | None => dict_get d k end.
Proof.
  revert d. induction items as [|[k' v] items IH]; intros d Hs; simpl.
  - reflexivity.
  - destruct (Hs k') as [s ->]; [left; reflexivity|].
    rewrite IH by (intros x Hx; apply Hs; right; exact Hx).
    destruct (item_value items k); [reflexivity|].
    rewrite dict_get_set_str.
    destruct (key_eqb (PStr s) k); reflexivity.
Qed.

Lemma update_from_items_keys (items : list (pyval * pyval)) (d : pydict) :
  (forall x, In x (dict_keys items) ->
             In x (dict_keys d) /\ exists s, x = PStr s) ->
  dict_keys (update_from_items d items) = dict_keys d.
Proof.
  revert d. induction items as [|[k' v] items IH]; intros d Hs; simpl.
  - reflexivity.
  - destruct (Hs k') as [Hin [s ->]]; [left; reflexivity|].
    rewrite IH.
    + apply dict_keys_set_present. exact Hin.
    + intros x Hx. rewrite dict_keys_set_present by exact Hin.
      apply Hs. right. exact Hx.
Qed.

(** ** The script, step by step *)

Section ProgramFacts.

Context {W : Type} {P : Platform W}.

Lemma run_unfold (cmd cwd : string) (w : W) :
  run cmd cwd w = (Ok (run_value cmd cwd w), run_world cmd cwd w, run_trace cmd cwd).
Proof.
  unfold run, run_value, run_world, run_trace, bind, try_except, subprocess, print, ret.
  destruct (subprocess_run cmd cwd (stdout_write [PStr ("> " ++ cmd)] w)) as [[e|c] w1];
    reflexivity.
Qed.

Lemma sleep_unfold (d : spec_float) (w : W) :
  sleep d w = (sleep_value d w, sleep_world d w, [ESleep d]).
Proof.
  unfold sleep, sleep_value, sleep_world.
  destruct (time_sleep d w) as [[e|] w1]; reflexivity.
Qed.

Lemma bind_unfold {A B} (m : M A) (f : A -> M B) (w : W) :
  bind m f w = match m w with
               | (Ok a, w1, t1) => let '(r, w2, t2) := f a w1 in (r, w2, (t1 ++ t2)%list)
               | (Raise e, w1, t1) => (Raise e, w1, t1)
               end.
Proof. reflexivity. Qed.

Ltac step :=
  repeat (first [ rewrite bind_unfold | rewrite run_unfold | rewrite sleep_unfold ];
          cbv beta iota zeta).

Lemma has_worktree_changes_unfold (w : W) :
  has_worktree_changes w =
  let w1 := run_world status_cmd ROOT w in
  let '(code, out) := run_value status_cmd ROOT w in
  if negb (code =? 0) then
    (Ok false, stdout_write [PStr "git status failed:"; PStr out] w1,
     (run_trace status_cmd ROOT
      ++ [EPrint [PStr "git status failed:"; PStr out]])%list)
  else (Ok (PyStr.nonempty (PyStr.strip out)), w1, run_trace status_cmd ROOT).
Proof.
  unfold has_worktree_changes. rewrite bind_unfold, run_unfold.
  destruct (run_value status_cmd ROOT w) as [code out]. cbv zeta.
  destruct (negb (code =? 0)); reflexivity.
Qed.

Lemma commit_and_push_unfold (s : settings) (lct : spec_float) (w : W) :
  commit_and_push s lct w =
  let msg := commit_msg (cfg s) (utc_clock w) in
  let c := run_value (commit_cmd msg) ROOT w in
  let w1 := run_world (commit_cmd msg) ROOT w in
  if negb (fst c =? 0) then
    (Ok lct, stdout_write [PStr "git commit failed:"; PStr (snd c)] w1,
     (run_trace (commit_cmd msg) ROOT ++ [EPrint [PStr "git commit failed:"; PStr (snd c)]])%list)
  else
    let w2 := stdout_write [PStr "Committed:"; PStr msg] w1 in
    if push s then
      let p := run_value (push_cmd (branch s)) ROOT w2 in
      let w3 := run_world (push_cmd (branch s)) ROOT w2 in
      let line := if negb (fst p =? 0) then [PStr "git push failed:"; PStr (snd p)]
                  else [PStr "Pushed to origin"; branch s] in
      (Ok (wall_clock w2), stdout_write line w3,
       (run_trace (commit_cmd msg) ROOT ++ [EPrint [PStr "Committed:"; PStr msg]]
        ++ run_trace (push_cmd (branch s)) ROOT ++ [EPrint line])%list)
    else
      (Ok (wall_clock w2), w2,
       (run_trace (commit_cmd msg) ROOT ++ [EPrint [PStr "Committed:"; PStr msg]])%list).
Proof.
  unfold commit_and_push. cbv zeta.
  unfold utcnow at 1. step.
  destruct (run_value (commit_cmd (commit_msg (cfg s) (utc_clock w))) ROOT w) as [code out].
  cbv beta iota zeta. cbn [fst snd].
  destruct (negb (code =? 0)).
  - unfold print, ret. step. reflexivity.
  - unfold print at 1. step. unfold time_time. step.
    destruct (push s).
    + step.
      destruct (run_value (push_cmd (branch s)) ROOT _) as [pc pout].
      cbv beta iota zeta. cbn [fst snd].
      destruct (negb (pc =? 0)); unfold print, ret; step; reflexivity.
    + unfold ret. step. reflexivity.
Qed.

Lemma iteration_unfold (s : settings) (lct : spec_float) (w : W) :
  iteration s lct w =
  match has_worktree_changes w with
  | (Raise e, w1, tr1) => (Raise e, w1, tr1)
  | (Ok false, w1, tr1) => turn_end s lct w1 tr1
  | (Ok true, w1, tr1) =>
      if flt (fsub (wall_clock w1) lct) (debounce s) then
        let line := [PStr "Changes detected but debouncing..."] in
        turn_end s lct (stdout_write line w1) (tr1 ++ [EPrint line])
      else
        let a := run_value add_cmd ROOT w1 in
        let w2 := run_world add_cmd ROOT w1 in
        if negb (fst a =? 0) then
          let line := [PStr "git add failed:"; PStr (snd a)] in
          turn_end s lct (stdout_write line w2)
                   (tr1 ++ run_trace add_cmd ROOT ++ [EPrint line])
        else
          let d := run_value diff_cmd ROOT w2 in
          let w3 := run_world diff_cmd ROOT w2 in
          if negb (fst d =? 0) then
            let line := [PStr "git diff --cached failed:"; PStr (snd d)] in
            turn_end s lct (stdout_write line w3)
                     (tr1 ++ run_trace add_cmd ROOT ++ run_trace diff_cmd ROOT
                          ++ [EPrint line])
          else if negb (PyStr.nonempty (PyStr.strip (snd d))) then
            let line := [PStr "Nothing staged to commit (skipping)."] in
            turn_end s lct (stdout_write line w3)
                     (tr1 ++ run_trace add_cmd ROOT ++ run_trace diff_cmd ROOT
                          ++ [EPrint line])
          else
            match commit_and_push s lct w3 with
            | (Ok t, w4, tr4) =>
                turn_end s t w4
                         (tr1 ++ run_trace add_cmd ROOT ++ run_trace diff_cmd ROOT ++ tr4)
            | (Raise e, w4, tr4) =>
                (Raise e, w4,
                 tr1 ++ run_trace add_cmd ROOT ++ run_trace diff_cmd ROOT ++ tr4)
            end
  end%list.
Proof.
  unfold iteration, turn_end. rewrite bind_unfold.
  destruct (has_worktree_changes w) as [[[[|]|e] w1] tr1]; [| |reflexivity].
  - unfold time_time at 1. step.
    destruct (flt (fsub (wall_clock w1) lct) (debounce s)).
    + unfold print, ret. step.
      destruct (sleep_value (delay s) _); rewrite <- ?app_assoc; reflexivity.
    + step. destruct (run_value add_cmd ROOT w1) as [ac aout].
      cbv beta iota zeta. cbn [fst snd].
      destruct (negb (ac =? 0)).
      * unfold print, ret. step.
        destruct (sleep_value (delay s) _); rewrite <- ?app_assoc; reflexivity.
      * step. destruct (run_value diff_cmd ROOT _) as [dc dout].
        cbv beta iota zeta. cbn [fst snd].
        destruct (negb (dc =? 0)).
        -- unfold print, ret. step.
           destruct (sleep_value (delay s) _); rewrite <- ?app_assoc; reflexivity.
        -- destruct (negb (PyStr.nonempty (PyStr.strip dout))).
           ++ unfold print, ret. step.
              destruct (sleep_value (delay s) _); rewrite <- ?app_assoc; reflexivity.
           ++ step. destruct (commit_and_push s lct _) as [[[t|e] w4] tr4].
              ** unfold ret. step.
                 destruct (sleep_value (delay s) _); rewrite <- ?app_assoc; reflexivity.
              ** reflexivity.
  - unfold ret. step.
    destruct (sleep_value (delay s) _); rewrite <- ?app_assoc; reflexivity.
Qed.

End ProgramFacts.

(** * The command runner and the change detector *)

Section Runner.

Context {W : Type} {P : Platform W}.


End Runner.


(** * [run] with the console and the interrupt *)

Section ConsoleRun.

Context {W : Type} {P : Platform W} {H : Console.Hazards W}.

(** C8, as amended. [run] never raises on a failure of the command: when
    the process completes, whatever its exit status, [run] returns the pair
    of that status and the captured output of standard output and standard
    error, stripped; when [subprocess.run] raises an [Exception], [run]
    returns the pair of status 1 and the text of the exception.  [run]
    raises in two cases only, both outside what its [try] catches: when the
    echo [print] before the [try] raises, it raises that exception and runs
    nothing; when the user interrupts the command, it raises
    [KeyboardInterrupt].  In every other world it is the [run] of the
    rest of this development. *)
Theorem run_raises_only_outside_try (cmd cwd : string) (w : W) :
  let echo := [PStr ("> " ++ cmd)] in
  match Console.print_raises echo w with
  | Some (e, w') => Console.run cmd cwd w = (Raise (Error e), w', [EPrint echo])
  | None =>
      let w0 := stdout_write echo w in
      match Console.run_interrupted cmd cwd w0 with
      | Some w' =>
          Console.run cmd cwd w
          = (Raise KeyboardInterrupt, w', [EPrint echo; ERun cmd cwd])
      | None =>
          Console.run cmd cwd w = run cmd cwd w /\
          match subprocess_run cmd cwd w0 with
          | (inr c, w1) =>
              Console.run cmd cwd w
              = (Ok (returncode c, PyStr.strip (stdout c)), w1,
                 [EPrint echo; ERun cmd cwd])
          | (inl e, w1) =>
              Console.run cmd cwd w
              = (Ok (1, exc_text e), w1, [EPrint echo; ERun cmd cwd])
          end
      end
  end.
Proof.
  cbv zeta. unfold Console.run, Console.print, Console.subprocess.
  rewrite bind_unfold.
  destruct (Console.print_raises [PStr ("> " ++ cmd)] w) as [[e w']|];
    [reflexivity|].
  unfold try_except. rewrite bind_unfold.
  destruct (Console.run_interrupted cmd cwd (stdout_write [PStr ("> " ++ cmd)] w))
    as [w'|]; [reflexivity|].
  rewrite run_unfold. unfold run_value, run_world, run_trace, ret.
  destruct (subprocess_run cmd cwd (stdout_write [PStr ("> " ++ cmd)] w))
    as [[e|c] w1]; split; reflexivity.
Qed.

End ConsoleRun.

(** C8, as stated, fails: behind a console that encodes to ASCII, [run]
    raises [UnicodeEncodeError] for the command [echo caf] followed by an
    accented e, from the echo [print] that no [try] guards. *)
Lemma run_raises_on_ascii_console :
  ~ Console.returns (H := Console.ascii_console) Console.echo_cafe ROOT Scenario.busy.
Proof.
  intros (v & w' & tr & E). vm_compute in E. discriminate E.
Qed.

(** * The configuration loader *)



Lemma default_keys_are_strings (k : pyval) :
  In k (dict_keys DEFAULT_CONFIG) -> exists s, k = PStr s.
Proof.
  simpl. intros H.
  repeat (destruct H as [H|H]; [subst k; eexists; reflexivity|]).
  contradiction.
Qed.


Section Loader.

Context {W : Type} {P : Platform W}.

Lemma load_config_unfold (w : W) :
  load_config w =
  let failed e w1 :=
    if is_file_not_found e then (Ok DEFAULT_CONFIG, w1, [EOpen CONFIG_PATH])
    else (Ok DEFAULT_CONFIG, stdout_write (failure_line e) w1,
          [EOpen CONFIG_PATH; EPrint (failure_line e)]) in
  match open_json_load CONFIG_PATH w with
  | (inl e, w1) => failed e w1
  | (inr v, w1) =>
      match dict_update DEFAULT_CONFIG v with
      | inl e => failed e w1
      | inr d => (Ok d, w1, [EOpen CONFIG_PATH])
      end
  end.
Proof.
  unfold load_config, try_except, bind, json_load_file, is_file_not_found,
    failure_line.
  destruct (open_json_load CONFIG_PATH w) as [[e|v] w1]; cbv zeta.
  - cbn [exc_cls]. destruct (exc_cls e); reflexivity.
  - unfold lift. destruct (dict_update DEFAULT_CONFIG v) as [e|d].
    + unfold raise. cbn [exc_cls]. destruct (exc_cls e); reflexivity.
    + reflexivity.
Qed.

(** The trace of [load_config] runs no command. *)
Lemma load_config_runs_nothing (w : W) :
  commands_run (snd (load_config w)) = [].
Proof.
  rewrite load_config_unfold. cbv zeta.
  destruct (open_json_load CONFIG_PATH w) as [[e|v] w1].
  - destruct (is_file_not_found e); reflexivity.
  - destruct (dict_update DEFAULT_CONFIG v) as [e|d]; [|reflexivity].
    destruct (is_file_not_found e); reflexivity.
Qed.


(** C6. When the file decodes to a JSON object whose keys are among the
    configuration keys, [load_config] returns a dict with exactly the
    keys of the defaults, in which every key has the value the file
    gives it if the file has the key, and its default otherwise. *)
Theorem load_config_overrides_key_wise
  (items : list (pyval * pyval)) (w w1 : W) :
  open_json_load CONFIG_PATH w = (inr (PDict items), w1) ->
  (forall k, In k (dict_keys items) -> In k (dict_keys DEFAULT_CONFIG)) ->
  exists d,
    load_config w = (Ok d, w1, [EOpen CONFIG_PATH]) /\
    dict_keys d = dict_keys DEFAULT_CONFIG /\
    forall k, dict_get d k = defaults_overridden_by items k.
Proof.
  intros Hopen Hsub.
  rewrite load_config_unfold, Hopen. cbv zeta. cbn [dict_update].
  eexists. split; [reflexivity|]. split.
  - apply update_from_items_keys. intros x Hx. split.
    + apply Hsub. exact Hx.
    + apply default_keys_are_strings. apply Hsub. exact Hx.
  - intro k. unfold defaults_overridden_by.
    apply update_from_items_get. intros x Hx.
    apply default_keys_are_strings. apply Hsub. exact Hx.
Qed.

End Loader.

Lemma load_config_overrides_key_wise_witness :
  exists d,
    load_config Scenario.disabled
    = (Ok d, Scenario.disabled, [EOpen CONFIG_PATH]) /\
    dict_keys d = dict_keys DEFAULT_CONFIG /\
    forall k,
      dict_get d k
      = defaults_overridden_by [(k_enabled, PBool false); (k_branch, PStr "dev")] k.
Proof.
  apply (load_config_overrides_key_wise
           [(k_enabled, PBool false); (k_branch, PStr "dev")]
           Scenario.disabled Scenario.disabled).
  - reflexivity.
  - simpl. intros k [H|[H|H]]; subst; tauto.
Defined.

(** * The watch loop *)

Lemma commands_run_app (a b : list event) :
  commands_run (a ++ b) = (commands_run a ++ commands_run b)%list.
Proof.
  induction a as [|[args|path|cmd cwd|d] a IH]; simpl; rewrite ?IH; reflexivity.
Qed.

Section Loop.

Context {W : Type} {P : Platform W}.

Lemma has_worktree_changes_true (w w1 : W) (tr1 : list event) :
  has_worktree_changes w = (Ok true, w1, tr1) ->
  w1 = run_world status_cmd ROOT w /\ tr1 = run_trace status_cmd ROOT.
Proof.
  rewrite has_worktree_changes_unfold. cbv zeta.
  destruct (run_value status_cmd ROOT w) as [code out].
  destruct (negb (code =? 0)); intro H; inversion H; auto.
Qed.



(** Past the debounce test, the turn runs the staging command next. *)
Lemma iteration_stages_when_due
  (s : settings) (T : spec_float) (w w1 : W) (tr1 : list event) :
  has_worktree_changes w = (Ok true, w1, tr1) ->
  flt (fsub (wall_clock w1) T) (debounce s) = false ->
  exists rest,
    snd (iteration s T w)
    = (run_trace status_cmd ROOT ++ run_trace add_cmd ROOT ++ rest)%list.
Proof.
  intros H Hlt. destruct (has_worktree_changes_true _ _ _ H) as [Hw Htr].
  subst tr1. rewrite iteration_unfold, H, Hlt. cbv zeta. unfold turn_end.
  destruct (negb (fst (run_value add_cmd ROOT w1) =? 0)).
  { cbn [snd]. rewrite <- !app_assoc. eexists. reflexivity. }
  destruct (negb (fst (run_value diff_cmd ROOT (run_world add_cmd ROOT w1)) =? 0)).
  { cbn [snd]. rewrite <- !app_assoc. eexists. reflexivity. }
  destruct (negb (PyStr.nonempty _)).
  { cbn [snd]. rewrite <- !app_assoc. eexists. reflexivity. }
  destruct (commit_and_push s T _) as [[[t|e] w4] tr4].
  - cbn [snd]. rewrite <- !app_assoc. eexists. reflexivity.
  - cbn [snd]. eexists. reflexivity.
Qed.


(** C3. Let a turn of the loop detect a change, pass the debounce test
    and stage with success, and let the staged-diff query then return empty
    output.  The turn runs the status query, the staging and the query and
    no other command, so no commit; it prints one line and sleeps,
    [last_commit_time] unchanged.  The line is the no-op notice when the
    query exited with status zero, and the failure of the query
    otherwise. *)
Theorem nothing_staged_no_commit
  (s : settings) (lct : spec_float) (w w1 : W) (tr1 : list event) :
  has_worktree_changes w = (Ok true, w1, tr1) ->
  flt (fsub (wall_clock w1) lct) (debounce s) = false ->
  fst (run_value add_cmd ROOT w1) = 0 ->
  let w2 := run_world add_cmd ROOT w1 in
  snd (run_value diff_cmd ROOT w2) = EmptyString ->
  let w3 := run_world diff_cmd ROOT w2 in
  exists line,
    iteration s lct w
    = turn_end s lct (stdout_write line w3)
               (run_trace status_cmd ROOT ++ run_trace add_cmd ROOT
                ++ run_trace diff_cmd ROOT ++ [EPrint line]) /\
    commands_run (snd (iteration s lct w)) = [status_cmd; add_cmd; diff_cmd] /\
    (fst (run_value diff_cmd ROOT w2) = 0 ->
     line = [PStr "Nothing staged to commit (skipping)."]) /\
    (fst (run_value diff_cmd ROOT w2) <> 0 ->
     line = [PStr "git diff --cached failed:"; PStr EmptyString]).
Proof.
  intros H Hdeb Hadd w2 Hout w3.
  destruct (has_worktree_changes_true _ _ _ H) as [Hw Htr]. subst tr1.
  rewrite iteration_unfold, H, Hdeb. cbv zeta. rewrite Hadd.
  cbn [Z.eqb negb]. fold w2. rewrite Hout. fold w3.
  destruct (fst (run_value diff_cmd ROOT w2) =? 0) eqn:E; cbn [negb].
  - apply Z.eqb_eq in E. cbn [PyStr.strip PyStr.lstrip PyStr.rstrip PyStr.nonempty negb].
    eexists. split; [reflexivity|]. split; [reflexivity|].
    split; [reflexivity|congruence].
  - apply Z.eqb_neq in E.
    eexists. split; [reflexivity|]. split; [reflexivity|].
    split; [congruence|reflexivity].
Qed.

End Loop.

(** * The commit message *)







Section Message.

Context {W : Type} {P : Platform W}.


End Message.

(** * The first change of a run *)

Section FirstChange.

Context {W : Type} {P : Platform W}.

Lemma watch_unfold (n : nat) (s : settings) (lct : spec_float) (w : W) :
  watch (S n) s lct w =
  match iteration s lct w with
  | (Ok t, w1, t1) => let '(r, w2, t2) := watch n s t w1 in (r, w2, (t1 ++ t2)%list)
  | (Raise e, w1, t1) => (Raise e, w1, t1)
  end.
Proof. reflexivity. Qed.

(** A turn that runs nothing but the status query leaves
    [last_commit_time] as it was. *)
Lemma iteration_keeps_without_staging
  (s : settings) (lct lct' : spec_float) (w w' : W) (tr : list event) :
  iteration s lct w = (Ok lct', w', tr) ->
  (forall c, In c (commands_run tr) -> c = status_cmd) ->
  lct' = lct.
Proof.
  rewrite iteration_unfold. unfold turn_end.
  destruct (has_worktree_changes w) as [[[[|]|e] w1] tr1].
  2: { destruct (sleep_value _ _); intros H _; inversion H; auto. }
  2: { discriminate. }
  cbv zeta.
  destruct (flt _ _).
  { destruct (sleep_value _ _); intros H _; inversion H; auto. }
  destruct (negb (fst (run_value add_cmd ROOT w1) =? 0)).
  { destruct (sleep_value _ _); intros H _; inversion H; auto. }
  destruct (negb (fst (run_value diff_cmd ROOT _) =? 0)).
  { destruct (sleep_value _ _); intros H _; inversion H; auto. }
  destruct (negb (PyStr.nonempty _)).
  { destruct (sleep_value _ _); intros H _; inversion H; auto. }
  destruct (commit_and_push s lct _) as [[[t|e] w4] tr4]; [|discriminate].
  destruct (sleep_value _ _); intros H Hall; inversion H; subst.
  exfalso.
  assert (A : add_cmd = status_cmd).
  { apply Hall. rewrite !commands_run_app. cbn [commands_run run_trace app].
    apply in_or_app. left. apply in_or_app. right. left. reflexivity. }
  discriminate A.
Qed.

Lemma watch_keeps_without_staging (s : settings) (n : nat) :
  forall (lct lct' : spec_float) (w w' : W) (tr : list event),
    watch n s lct w = (Ok lct', w', tr) ->
    (forall c, In c (commands_run tr) -> c = status_cmd) ->
    lct' = lct.
Proof.
  induction n as [|n IH]; intros lct lct' w w' tr H Hall.
  - inversion H. reflexivity.
  - rewrite watch_unfold in H.
    destruct (iteration s lct w) as [[[t|e] w1] t1] eqn:E; [|discriminate].
    destruct (watch n s t w1) as [[r w2] t2] eqn:E'.
    inversion H; subst.
    assert (Ht : t = lct).
    { eapply iteration_keeps_without_staging; [exact E|].
      intros c Hc. apply Hall. rewrite commands_run_app.
      apply in_or_app. left. exact Hc. }
    subst t. eapply IH; [exact E'|].
    intros c Hc. apply Hall. rewrite commands_run_app.
    apply in_or_app. right. exact Hc.
Qed.

(** [main] enters the loop with [last_commit_time] at its initial value:
    with a configuration that is enabled and whose two durations convert,
    what [main] does after printing the configuration is what [watch] does
    from [initial_last_commit_time], and an interrupt ends it. *)
Lemma main_watches_from_initial
  (fuel : nat) (w w1 : W) (c : pydict) (tr : list event) (d db : spec_float) :
  load_config w = (Ok c, w1, tr) ->
  truthy (dict_get_default c k_enabled (PBool true)) = true ->
  py_float (dict_get_default c k_delay_seconds (PInt 2)) = inr d ->
  py_float (dict_get_default c k_debounce_seconds (PInt 5)) = inr db ->
  let s := mkSettings c d db (dict_get_default c k_branch (PStr "main"))
                      (truthy (dict_get_default c k_push (PBool true)))
                      (truthy (dict_get_default c k_include_untracked (PBool true))) in
  let line := [PStr "Auto-commit config:"; PDict c] in
  let bye := [PStr (newline ++ "Autocommit watcher stopped by user.")] in
  main fuel w =
  match watch fuel s initial_last_commit_time (stdout_write line w1) with
  | (Ok t, w2, t2) => (Ok (Running t), w2, (tr ++ EPrint line :: t2)%list)
  | (Raise KeyboardInterrupt, w2, t2) =>
      (Ok Stopped, stdout_write bye w2, (tr ++ EPrint line :: t2 ++ [EPrint bye])%list)
  | (Raise e, w2, t2) => (Raise e, w2, (tr ++ EPrint line :: t2)%list)
  end.
Proof.
  intros Hload Hen Hd Hdb s line bye.
  unfold main. rewrite bind_unfold, Hload. cbv beta iota zeta.
  unfold print at 1. rewrite bind_unfold. cbv beta iota zeta.
  rewrite Hen. cbn [negb]. rewrite bind_unfold, Hd. cbn [lift]. unfold ret at 1.
  cbv beta iota zeta. rewrite bind_unfold, Hdb. cbn [lift]. unfold ret at 1.
  cbv beta iota zeta. unfold try_except. rewrite bind_unfold. fold s. fold line.
  destruct (watch fuel s initial_last_commit_time (stdout_write line w1))
    as [[[t|[|code|e]] w2] t2]; try reflexivity.
  cbv beta iota zeta. unfold ret. rewrite app_nil_r. reflexivity.
Qed.

End FirstChange.

(** * The loop state and the commits *)

Section LoopState.

Context {W : Type} {P : Platform W}.

(** A turn that gets to the commit goes through the commit block and ends
    with its value. *)
Lemma iteration_at_commit_point
  (s : settings) (lct : spec_float) (w w3 : W) :
  commit_point s lct w = Some w3 ->
  iteration s lct w
  = match commit_and_push s lct w3 with
    | (Ok t, w4, tr4) =>
        turn_end s t w4
                 (run_trace status_cmd ROOT ++ run_trace add_cmd ROOT
                  ++ run_trace diff_cmd ROOT ++ tr4)
    | (Raise e, w4, tr4) =>
        (Raise e, w4,
         run_trace status_cmd ROOT ++ run_trace add_cmd ROOT
         ++ run_trace diff_cmd ROOT ++ tr4)
    end%list.
Proof.
  unfold commit_point. rewrite iteration_unfold.
  destruct (has_worktree_changes w) as [[[[|]|e] w1] tr1] eqn:H; try discriminate.
  destruct (has_worktree_changes_true _ _ _ H) as [_ ->].
  cbv zeta.
  destruct (flt _ _); [discriminate|].
  destruct (negb (fst (run_value add_cmd ROOT w1) =? 0)); [discriminate|].
  destruct (negb (fst (run_value diff_cmd ROOT _) =? 0)); [discriminate|].
  destruct (negb (PyStr.nonempty _)); [discriminate|].
  intro E. inversion E. reflexivity.
Qed.

(** A turn that does not get to the commit keeps [last_commit_time]. *)
Lemma iteration_without_commit_point
  (s : settings) (lct t : spec_float) (w w' : W) (tr : list event) :
  commit_point s lct w = None ->
  iteration s lct w = (Ok t, w', tr) -> t = lct.
Proof.
  unfold commit_point. rewrite iteration_unfold. unfold turn_end.
  destruct (has_worktree_changes w) as [[[[|]|e] w1] tr1].
  2: { intros _. destruct (sleep_value _ _); intro H; inversion H; auto. }
  2: { discriminate. }
  cbv zeta.
  destruct (flt _ _).
  { intros _. destruct (sleep_value _ _); intro H; inversion H; auto. }
  destruct (negb (fst (run_value add_cmd ROOT w1) =? 0)).
  { intros _. destruct (sleep_value _ _); intro H; inversion H; auto. }
  destruct (negb (fst (run_value diff_cmd ROOT _) =? 0)).
  { intros _. destruct (sleep_value _ _); intro H; inversion H; auto. }
  destruct (negb (PyStr.nonempty _)).
  { intros _. destruct (sleep_value _ _); intro H; inversion H; auto. }
  discriminate.
Qed.

(** The value of the commit block. *)
Lemma commit_and_push_value (s : settings) (lct : spec_float) (w3 : W) :
  let msg := commit_msg (cfg s) (utc_clock w3) in
  let code := fst (run_value (commit_cmd msg) ROOT w3) in
  let w_said := stdout_write [PStr "Committed:"; PStr msg]
                             (run_world (commit_cmd msg) ROOT w3) in
  exists w4 tr4,
    commit_and_push s lct w3
    = (Ok (if code =? 0 then wall_clock w_said else lct), w4, tr4) /\
    commands_run tr4
    = commit_cmd msg :: (if (code =? 0) && push s then [push_cmd (branch s)] else []).
Proof.
  intros msg code w_said. rewrite commit_and_push_unfold. cbv zeta.
  fold msg. fold code. fold w_said.
  destruct (code =? 0); cbn [negb andb].
  - destruct (push s); do 2 eexists; (split; [reflexivity|]);
      rewrite !commands_run_app; reflexivity.
  - do 2 eexists. split; [reflexivity|]. rewrite commands_run_app. reflexivity.
Qed.

(** What a completed turn leaves in [last_commit_time]. *)
Lemma iteration_value
  (s : settings) (lct t : spec_float) (w w' : W) (tr : list event) :
  iteration s lct w = (Ok t, w', tr) ->
  t = match commit_time s lct w with Some T => T | None => lct end.
Proof.
  unfold commit_time. destruct (commit_point s lct w) as [w3|] eqn:C.
  - rewrite (iteration_at_commit_point s lct w w3 C).
    destruct (commit_and_push_value s lct w3) as (w4 & tr4 & E & _).
    cbv zeta in E. rewrite E. unfold turn_end. cbv zeta.
    destruct (sleep_value _ _); intro H; inversion H.
    destruct (fst (run_value _ ROOT w3) =? 0); reflexivity.
  - apply iteration_without_commit_point. exact C.
Qed.

Lemma watch_value (s : settings) (n : nat) :
  forall (lct t : spec_float) (w w_n : W) (tr : list event),
    watch n s lct w = (Ok t, w_n, tr) ->
    t = match last_commit s n lct w with Some T => T | None => lct end.
Proof.
  induction n as [|n IH]; intros lct t w w_n tr H.
  - inversion H. reflexivity.
  - rewrite watch_unfold in H. cbn [last_commit]. cbv zeta.
    destruct (iteration s lct w) as [[[t1|e] w1] tr1] eqn:E; [|discriminate].
    destruct (watch n s t1 w1) as [[r w2] t2] eqn:E'.
    inversion H; subst. cbn [fst snd].
    rewrite <- (iteration_value s lct t1 w w1 tr1 E).
    rewrite (IH _ _ _ _ _ E').
    destruct (last_commit s n t1 w1); [reflexivity|].
    apply (iteration_value s lct t1 w w1 tr1 E).
Qed.

(** One more turn after [n]. *)
Lemma watch_one_more (s : settings) (n : nat) :
  forall (lct : spec_float) (w : W),
    watch (n + 1) s lct w
    = match watch n s lct w with
      | (Ok t, w_n, tr) =>
          let '(r, w', tr') := iteration s t w_n in (r, w', (tr ++ tr')%list)
      | (Raise e, w_n, tr) => (Raise e, w_n, tr)
      end.
Proof.
  induction n as [|n IH]; intros lct w.
  - cbn [Nat.add]. rewrite watch_unfold. cbn [watch]. unfold ret.
    destruct (iteration s lct w) as [[[t|e] w1] tr1]; cbn [app];
      rewrite ?app_nil_r; reflexivity.
  - cbn [Nat.add]. rewrite !watch_unfold.
    destruct (iteration s lct w) as [[[t|e] w1] tr1]; [|reflexivity].
    rewrite IH.
    destruct (watch n s t w1) as [[[t'|e] w2] tr2]; [|reflexivity].
    destruct (iteration s t' w2) as [[r w'] tr'].
    rewrite app_assoc. reflexivity.
Qed.


(** C1. Let the loop have completed any number of turns, the last
    successful commit among them having happened at time [T], and let the
    next turn detect a change, the clock reading [T'] just after.  Then
    [last_commit_time] is [T]; if [T' - T < debounce] (binary64 subtraction
    and comparison, as the script computes them) that turn prints the
    debounce notice and sleeps, and the only command it adds to those run
    so far is its status query; if [T' - T >= debounce] the turn goes on to
    run [git add -A] right after its status query. *)
Theorem debounce_since_last_commit
  (s : settings) (n : nat) (lct0 t T : spec_float) (w w_n w1 : W)
  (tr tr1 : list event) :
  watch n s lct0 w = (Ok t, w_n, tr) ->
  last_commit s n lct0 w = Some T ->
  has_worktree_changes w_n = (Ok true, w1, tr1) ->
  let T' := wall_clock w1 in
  t = T /\
  (flt (fsub T' T) (debounce s) = true ->
   let line := [PStr "Changes detected but debouncing..."] in
   iteration s t w_n
   = turn_end s T (stdout_write line w1) (run_trace status_cmd ROOT ++ [EPrint line]) /\
   commands_run (snd (watch (n + 1) s lct0 w))
   = (commands_run tr ++ [status_cmd])%list) /\
  (fle (debounce s) (fsub T' T) = true ->
   exists more,
     commands_run (snd (watch (n + 1) s lct0 w))
     = (commands_run tr ++ status_cmd :: add_cmd :: more)%list).
Proof.
  intros Hw Hl Hch T'.
  assert (Ht : t = T).
  { rewrite (watch_value s n lct0 t w w_n tr Hw), Hl. reflexivity. }
  subst t. split; [reflexivity|].
  destruct (has_worktree_changes_true _ _ _ Hch) as [_ Htr]. subst tr1.
  split.
  - intros Hlt line.
    assert (E : iteration s T w_n
                = turn_end s T (stdout_write line w1)
                           (run_trace status_cmd ROOT ++ [EPrint line])).
    { rewrite iteration_unfold, Hch. fold T'. rewrite Hlt. reflexivity. }
    split; [exact E|].
    rewrite watch_one_more, Hw, E. unfold turn_end. cbn [snd].
    rewrite !commands_run_app. reflexivity.
  - intros Hle. apply fle_not_flt in Hle.
    destruct (iteration_stages_when_due s T w_n w1 _ Hch Hle) as [rest E].
    exists (commands_run rest).
    rewrite watch_one_more, Hw.
    destruct (iteration s T w_n) as [[r w'] tr'] eqn:I. cbn [snd] in *.
    rewrite E, !commands_run_app. reflexivity.
Qed.

(** C10. [main] starts the loop with [last_commit_time] at 0.  So, for a
    run of [main] that has completed any number of turns and has run
    nothing but status queries, [last_commit_time] is still 0, and when the
    next turn detects a change at a time [now] with the configured
    [debounce <= now], the test [now - 0 < debounce] is false and [main]
    goes on to run [git add -A] right after that turn's status query: the
    first change of a run is not held back by debouncing. *)
Theorem main_first_change_passes_debounce
  (n : nat) (w w1 w_n w_c : W) (c : pydict) (tr0 tr tr_c : list event)
  (lct_n db : spec_float) :
  load_config w = (Ok c, w1, tr0) ->
  py_float (dict_get_default c k_debounce_seconds (PInt 5)) = inr db ->
  main n w = (Ok (Running lct_n), w_n, tr) ->
  (forall x, In x (commands_run tr) -> x = status_cmd) ->
  has_worktree_changes w_n = (Ok true, w_c, tr_c) ->
  fle db (wall_clock w_c) = true ->
  lct_n = float_of_Z 0 /\
  flt (fsub (wall_clock w_c) lct_n) db = false /\
  exists more,
    commands_run (snd (main (n + 1) w))
    = (commands_run tr ++ status_cmd :: add_cmd :: more)%list.
Proof.
  intros Hload Hdb Hmain Hall Hch Hle.
  (* the start-up of this run succeeded *)
  destruct (truthy (dict_get_default c k_enabled (PBool true))) eqn:Hen.
  2: { exfalso. unfold main in Hmain. rewrite bind_unfold, Hload in Hmain.
       cbv beta iota zeta in Hmain. unfold print at 1 in Hmain.
       rewrite bind_unfold in Hmain. cbv beta iota zeta in Hmain.
       rewrite Hen in Hmain. cbn [negb] in Hmain.
       unfold print, raise in Hmain. rewrite bind_unfold in Hmain.
       discriminate Hmain. }
  destruct (py_float (dict_get_default c k_delay_seconds (PInt 2))) as [e|d] eqn:Hd.
  { exfalso. unfold main in Hmain. rewrite bind_unfold, Hload in Hmain.
    cbv beta iota zeta in Hmain. unfold print at 1 in Hmain.
    rewrite bind_unfold in Hmain. cbv beta iota zeta in Hmain.
    rewrite Hen in Hmain. cbn [negb] in Hmain.
    rewrite bind_unfold, Hd in Hmain. discriminate Hmain. }
  pose proof (main_watches_from_initial n w w1 c tr0 d db Hload Hen Hd Hdb) as M0.
  pose proof (main_watches_from_initial (n + 1) w w1 c tr0 d db Hload Hen Hd Hdb) as M1.
  cbv zeta in M0, M1.
  set (s := mkSettings c d db (dict_get_default c k_branch (PStr "main"))
                       (truthy (dict_get_default c k_push (PBool true)))
                       (truthy (dict_get_default c k_include_untracked (PBool true))))
    in *.
  set (line := [PStr "Auto-commit config:"; PDict c]) in *.
  rewrite Hmain in M0.
  destruct (watch n s initial_last_commit_time (stdout_write line w1))
    as [[[t|[|code|e]] w2] t2] eqn:Hw; try discriminate M0.
  inversion M0; subst lct_n w_n tr. clear M0.
  assert (Hall2 : forall x, In x (commands_run t2) -> x = status_cmd).
  { intros x Hx. apply Hall. rewrite commands_run_app. apply in_or_app. right.
    exact Hx. }
  assert (Et : t = initial_last_commit_time)
    by (eapply watch_keeps_without_staging; eauto).
  assert (F : flt (fsub (wall_clock w_c) t) db = false).
  { rewrite Et. unfold initial_last_commit_time. rewrite flt_sub_zero.
    apply fle_not_flt. exact Hle. }
  split; [exact Et|]. split; [exact F|].
  destruct (iteration_stages_when_due s t w2 w_c _ Hch F) as [rest E].
  exists (commands_run rest).
  rewrite M1, watch_one_more, Hw.
  destruct (has_worktree_changes_true _ _ _ Hch) as [_ Htr].
  destruct (iteration s t w2) as [[r w'] tr'] eqn:I. cbn [snd] in E. subst tr'.
  destruct r as [t'|[|code|e]]; cbn [snd];
    rewrite ?commands_run_app; cbn [commands_run];
    rewrite ?commands_run_app; cbn [commands_run run_trace app];
    rewrite ?app_nil_r, <- ?app_assoc; reflexivity.
Qed.

End LoopState.

(** * The statements on the scripted platform *)

Lemma debounce_since_last_commit_witness :
  commands_run (snd (watch 2 Scenario.defaults fzero Runs.change_soon_after_commit))
  = [status_cmd; add_cmd; diff_cmd;
     commit_cmd "autosave: update - 2024-01-02T12:00:00Z";
     "git push origin main"; status_cmd] /\
  exists more,
    commands_run (snd (watch 2 Scenario.defaults fzero Runs.change_long_after_commit))
    = ([status_cmd; add_cmd; diff_cmd;
       commit_cmd "autosave: update - 2024-01-02T12:00:00Z";
       "git push origin main"; status_cmd; add_cmd] ++ more)%list.
Proof.
  split.
  - pose proof (fun t w_n w1 tr tr1 =>
                  debounce_since_last_commit Scenario.defaults 1 fzero t
                    (Scenario.f 1004) Runs.change_soon_after_commit w_n w1 tr tr1)
      as H.
    edestruct H as (_ & Hlt & _).
    + vm_compute. reflexivity.
    + vm_compute. reflexivity.
    + vm_compute. reflexivity.
    + destruct Hlt as [_ Hc]; [vm_compute; reflexivity|].
      cbn [Nat.add] in Hc. rewrite Hc. vm_compute. reflexivity.
  - pose proof (fun t w_n w1 tr tr1 =>
                  debounce_since_last_commit Scenario.defaults 1 fzero t
                    (Scenario.f 1004) Runs.change_long_after_commit w_n w1 tr tr1)
      as H.
    edestruct H as (_ & _ & Hge).
    + vm_compute. reflexivity.
    + vm_compute. reflexivity.
    + vm_compute. reflexivity.
    + destruct Hge as [more Hc]; [vm_compute; reflexivity|].
      exists more. cbn [Nat.add] in Hc. rewrite Hc. vm_compute. reflexivity.
Defined.


Lemma nothing_staged_no_commit_witness :
  commands_run (snd (iteration Scenario.defaults fzero Scenario.nothing_staged))
  = [status_cmd; add_cmd; diff_cmd].
Proof.
  edestruct (nothing_staged_no_commit Scenario.defaults fzero Scenario.nothing_staged)
    as (line & _ & H & _).
  - reflexivity.
  - reflexivity.
  - reflexivity.
  - reflexivity.
  - exact H.
Defined.



Lemma main_first_change_passes_debounce_witness :
  exists more,
    commands_run (snd (main 2 Scenario.quiet_then_busy))
    = status_cmd :: status_cmd :: add_cmd :: more.
Proof.
  pose proof (fun w_n w_c tr tr_c lct_n =>
                main_first_change_passes_debounce 1 Scenario.quiet_then_busy
                  Scenario.quiet_then_busy w_n w_c DEFAULT_CONFIG
                  [EOpen CONFIG_PATH] tr tr_c lct_n (Scenario.f 5)) as H.
  edestruct H as (_ & _ & more & Hc).
  - vm_compute. reflexivity.
  - vm_compute. reflexivity.
  - vm_compute. reflexivity.
  - vm_compute. intros x [E|[]]. symmetry. exact E.
  - vm_compute. reflexivity.
  - vm_compute. reflexivity.
  - exists more. cbn [Nat.add] in Hc. rewrite Hc. vm_compute. reflexivity.
Defined.



(** * More on strings *)

Module PyStrMore.

Import PyStr.

Lemma rstrip_cons (c : ascii) (s : string) :
  rstrip (String c s)
  = match rstrip s with
    | EmptyString => if isspace c then EmptyString else String c EmptyString
    | r => String c r
    end.
Proof. reflexivity. Qed.

Lemma rstrip_idempotent (s : string) : rstrip (rstrip s) = rstrip s.
Proof.
  induction s as [|c s IH]; [reflexivity|].
  rewrite rstrip_cons. destruct (rstrip s) as [|c' r] eqn:R.
  - destruct (isspace c) eqn:C; [reflexivity|].
    rewrite rstrip_cons. cbn [rstrip]. rewrite C. reflexivity.
  - rewrite rstrip_cons, IH. reflexivity.
Qed.

(** What [lstrip] leaves has no white space in front, and [rstrip] does
    not bring any. *)
Lemma lstrip_rstrip_lstrip (s : string) :
  lstrip (rstrip (lstrip s)) = rstrip (lstrip s).
Proof.
  induction s as [|c s IH]; [reflexivity|].
  cbn [lstrip]. destruct (isspace c) eqn:C; [exact IH|].
  rewrite rstrip_cons.
  destruct (rstrip s); rewrite ?C; cbn [lstrip]; rewrite C; reflexivity.
Qed.

Lemma strip_idempotent (s : string) : strip (strip s) = strip s.
Proof.
  unfold strip. rewrite lstrip_rstrip_lstrip. apply rstrip_idempotent.
Qed.

End PyStrMore.

(** * More on the loop *)

Lemma sleeps_app (a b : list event) :
  sleeps (a ++ b) = (sleeps a ++ sleeps b)%list.
Proof.
  induction a as [|[args|path|cmd cwd|d] a IH]; simpl; rewrite ?IH; reflexivity.
Qed.

Section Turn.

Context {W : Type} {P : Platform W}.

Lemma has_worktree_changes_events (w : W) :
  commands_run (snd (has_worktree_changes w)) = [status_cmd] /\
  sleeps (snd (has_worktree_changes w)) = [] /\
  exists b, fst (fst (has_worktree_changes w)) = Ok b.
Proof.
  rewrite has_worktree_changes_unfold. cbv zeta.
  destruct (run_value status_cmd ROOT w) as [code out].
  destruct (negb (code =? 0)); cbn; eauto.
Qed.

Lemma commit_and_push_events (s : settings) (lct : spec_float) (w : W) :
  sleeps (snd (commit_and_push s lct w)) = [] /\
  exists t, fst (fst (commit_and_push s lct w)) = Ok t.
Proof.
  rewrite commit_and_push_unfold. cbv zeta.
  destruct (negb _); [cbn; eauto|].
  destruct (push s); cbn; eauto.
Qed.


Lemma commit_cmd_not_status (msg : string) : commit_cmd msg <> status_cmd.
Proof. unfold commit_cmd, status_cmd. cbn. discriminate. Qed.

Lemma push_cmd_not_status (b : pyval) : push_cmd b <> status_cmd.
Proof. unfold push_cmd, status_cmd. cbn. discriminate. Qed.

Lemma commit_and_push_no_status (s : settings) (lct : spec_float) (w : W) :
  ~ In status_cmd (commands_run (snd (commit_and_push s lct w))).
Proof.
  rewrite commit_and_push_unfold. cbv zeta.
  destruct (negb _); [|destruct (push s)]; cbn [snd];
    rewrite ?commands_run_app; cbn [commands_run run_trace app In];
    intro H; repeat destruct H as [H|H];
    try (apply commit_cmd_not_status in H; exact H);
    try (apply push_cmd_not_status in H; exact H); try exact H.
Qed.

(** Every turn is a sleep at the end of a trace without sleeps that starts
    with the one status query of the turn. *)
Lemma iteration_is_turn_end (s : settings) (lct : spec_float) (w : W) :
  exists v w0 tr0 rest,
    iteration s lct w = turn_end s v w0 tr0 /\
    sleeps tr0 = [] /\
    commands_run tr0 = status_cmd :: rest /\
    ~ In status_cmd rest.
Proof.
  rewrite iteration_unfold.
  pose proof (has_worktree_changes_events w) as (Hc & Hs & b & Hb).
  destruct (has_worktree_changes w) as [[[[|]|e] w1] tr1]; cbn [fst snd] in *;
    try discriminate.
  2: { do 4 eexists. split; [reflexivity|]. split; [exact Hs|].
       split; [exact Hc|]. intros []. }
  cbv zeta. destruct (flt _ _).
  { do 4 eexists. split; [reflexivity|].
    rewrite !sleeps_app, !commands_run_app, Hs, Hc.
    split; [reflexivity|]. split; [reflexivity|]. intros []. }
  destruct (negb (fst (run_value add_cmd ROOT w1) =? 0)).
  { do 4 eexists. split; [reflexivity|].
    rewrite !sleeps_app, !commands_run_app, Hs, Hc.
    split; [reflexivity|]. split; [reflexivity|].
    cbn. intros [H|[]]. discriminate H. }
  destruct (negb (fst (run_value diff_cmd ROOT _) =? 0)).
  { do 4 eexists. split; [reflexivity|].
    rewrite !sleeps_app, !commands_run_app, Hs, Hc.
    split; [reflexivity|]. split; [reflexivity|].
    cbn. intros [H|[H|[]]]; discriminate H. }
  destruct (negb (PyStr.nonempty _)).
  { do 4 eexists. split; [reflexivity|].
    rewrite !sleeps_app, !commands_run_app, Hs, Hc.
    split; [reflexivity|]. split; [reflexivity|].
    cbn. intros [H|[H|[]]]; discriminate H. }
  set (w3 := run_world diff_cmd ROOT (run_world add_cmd ROOT w1)).
  pose proof (commit_and_push_events s lct w3) as (Hs4 & t & Ht).
  pose proof (commit_and_push_no_status s lct w3) as Hn.
  destruct (commit_and_push s lct w3) as [[[t'|e] w4] tr4]; cbn [fst snd] in *;
    try discriminate.
  do 4 eexists. split; [reflexivity|].
  rewrite !sleeps_app, !commands_run_app, Hs, Hs4, Hc.
  split; [reflexivity|]. split; [reflexivity|].
  cbn [commands_run run_trace app In]. intros [H|[H|H]]; try discriminate H.
  exact (Hn H).
Qed.

(** X1. A turn that detects no change (the status query failed, or wrote
    nothing but white space) runs no other command: it sleeps [delay] and
    keeps [last_commit_time]. *)
Theorem idle_turn (s : settings) (lct : spec_float) (w w1 : W) (tr1 : list event) :
  has_worktree_changes w = (Ok false, w1, tr1) ->
  iteration s lct w = turn_end s lct w1 tr1 /\
  commands_run (snd (iteration s lct w)) = [status_cmd] /\
  sleeps (snd (iteration s lct w)) = [delay s] /\
  forall t, fst (fst (iteration s lct w)) = Ok t -> t = lct.
Proof.
  intro H. pose proof (has_worktree_changes_events w) as (Hc & Hs & _).
  rewrite H in Hc, Hs. cbn [snd] in Hc, Hs.
  rewrite iteration_unfold, H. unfold turn_end. cbn [fst snd].
  rewrite commands_run_app, sleeps_app, Hc, Hs.
  split; [reflexivity|]. split; [reflexivity|]. split; [reflexivity|].
  destruct (sleep_value (delay s) w1); intros t E; inversion E; reflexivity.
Qed.

Lemma run_value_stripped (cmd cwd : string) (w : W) :
  fst (run_value cmd cwd w) = 0 ->
  PyStr.strip (snd (run_value cmd cwd w)) = snd (run_value cmd cwd w).
Proof.
  unfold run_value.
  destruct (fst (subprocess_run cmd cwd (stdout_write [PStr ("> " ++ cmd)] w)))
    as [e|c]; cbn [fst snd]; [discriminate|].
  intros _. apply PyStrMore.strip_idempotent.
Qed.



(** X4. When [run] returns status 0 its text is already stripped: the second
    [strip] of lines 62 and 104 changes nothing, and
    [has_worktree_changes] is true exactly when the status query returned
    status 0 with a text that is not empty. *)
Theorem run_text_is_stripped (cmd cwd : string) (w : W) :
  (fst (run_value cmd cwd w) = 0 ->
   PyStr.strip (snd (run_value cmd cwd w)) = snd (run_value cmd cwd w)) /\
  fst (fst (has_worktree_changes w))
  = Ok ((fst (run_value status_cmd ROOT w) =? 0)
        && PyStr.nonempty (snd (run_value status_cmd ROOT w))).
Proof.
  split; [apply run_value_stripped|].
  rewrite has_worktree_changes_unfold. cbv zeta.
  pose proof (run_value_stripped status_cmd ROOT w) as S.
  destruct (run_value status_cmd ROOT w) as [code out]. cbn [fst snd] in *.
  destruct (code =? 0) eqn:E; cbn [negb andb fst]; [|reflexivity].
  apply Z.eqb_eq in E. rewrite (S E). reflexivity.
Qed.

(** X5. The commands of a turn, in order, are the status query alone; or
    the status query and the staging; or these and the staged-diff query;
    or these and the commit; or these and the push, which happens only when
    [push] is set and the commit returned status 0.  No turn commits
    without having staged, and none runs any other command. *)
Theorem turn_commands_in_order (s : settings) (lct : spec_float) (w : W) :
  let cmds := commands_run (snd (iteration s lct w)) in
  cmds = [status_cmd] \/
  cmds = [status_cmd; add_cmd] \/
  cmds = [status_cmd; add_cmd; diff_cmd] \/
  exists w3,
    let c := commit_cmd (commit_msg (cfg s) (utc_clock w3)) in
    cmds = [status_cmd; add_cmd; diff_cmd; c] \/
    (cmds = [status_cmd; add_cmd; diff_cmd; c; push_cmd (branch s)] /\
     push s = true /\ fst (run_value c ROOT w3) = 0).
Proof.
  cbv zeta. rewrite iteration_unfold. unfold turn_end.
  pose proof (has_worktree_changes_events w) as (Hc & _ & b & Hb).
  destruct (has_worktree_changes w) as [[[[|]|e] w1] tr1]; cbn [fst snd] in *;
    try discriminate.
  2: { left. rewrite commands_run_app, Hc. reflexivity. }
  cbv zeta. destruct (flt _ _).
  { left. cbn [snd]. rewrite !commands_run_app, Hc. reflexivity. }
  destruct (negb (fst (run_value add_cmd ROOT w1) =? 0)).
  { right; left. cbn [snd]. rewrite !commands_run_app, Hc. reflexivity. }
  destruct (negb (fst (run_value diff_cmd ROOT _) =? 0)).
  { right; right; left. cbn [snd]. rewrite !commands_run_app, Hc. reflexivity. }
  destruct (negb (PyStr.nonempty _)).
  { right; right; left. cbn [snd]. rewrite !commands_run_app, Hc. reflexivity. }
  right; right; right.
  set (w3 := run_world diff_cmd ROOT (run_world add_cmd ROOT w1)).
  exists w3. rewrite commit_and_push_unfold. cbv zeta.
  destruct (fst (run_value (commit_cmd (commit_msg (cfg s) (utc_clock w3))) ROOT w3) =? 0)
    eqn:E; cbn [negb].
  - apply Z.eqb_eq in E. destruct (push s) eqn:Hp.
    + right. cbn [snd]. rewrite !commands_run_app, Hc. auto.
    + left. cbn [snd]. rewrite !commands_run_app, Hc. reflexivity.
  - left. cbn [snd]. rewrite !commands_run_app, Hc. reflexivity.
Qed.

(** X7. Whenever [n] turns of the loop complete, the script has slept [n]
    times, each time for [delay] seconds, and has run the status query
    exactly [n] times: one poll and one sleep a turn, whatever happened in
    between. *)
Theorem completed_turns_poll_and_sleep (s : settings) (n : nat) :
  forall (lct t : spec_float) (w w' : W) (tr : list event),
    watch n s lct w = (Ok t, w', tr) ->
    sleeps tr = repeat (delay s) n /\
    count_occ string_dec (commands_run tr) status_cmd = n.
Proof.
  induction n as [|n IH]; intros lct t w w' tr H.
  - inversion H. split; reflexivity.
  - rewrite watch_unfold in H.
    destruct (iteration_is_turn_end s lct w)
      as (v & w0 & tr0 & rest & E & Hs & Hc & Hn).
    rewrite E in H. unfold turn_end in H.
    destruct (sleep_value (delay s) w0); [|discriminate].
    destruct (watch n s v (sleep_world (delay s) w0)) as [[r w2] t2] eqn:E'.
    inversion H; subst.
    destruct (IH _ _ _ _ _ E') as [IHs IHc].
    rewrite !sleeps_app, !commands_run_app, Hs, Hc, IHs.
    split; [reflexivity|].
    cbn [commands_run app].
    rewrite count_occ_cons_eq by reflexivity.
    rewrite !count_occ_app, IHc.
    rewrite (proj1 (count_occ_not_In string_dec rest status_cmd) Hn). reflexivity.
Qed.

End Turn.

(** * More on start-up and shutdown *)

Section Startup.

Context {W : Type} {P : Platform W}.

(** X8. Of what the loop raises, [main] catches [KeyboardInterrupt] and
    nothing else: on an interrupt it prints the farewell and returns, so the
    process exits with status 0; any other exception (a [ValueError] of
    [time.sleep] for a negative [delay], say) leaves [main] as it is. *)
Theorem only_interrupt_is_caught
  (fuel : nat) (w w1 w2 : W) (c : pydict) (tr t2 : list event)
  (d db : spec_float) (r : raised) :
  load_config w = (Ok c, w1, tr) ->
  truthy (dict_get_default c k_enabled (PBool true)) = true ->
  py_float (dict_get_default c k_delay_seconds (PInt 2)) = inr d ->
  py_float (dict_get_default c k_debounce_seconds (PInt 5)) = inr db ->
  let s := mkSettings c d db (dict_get_default c k_branch (PStr "main"))
                      (truthy (dict_get_default c k_push (PBool true)))
                      (truthy (dict_get_default c k_include_untracked (PBool true))) in
  let line := [PStr "Auto-commit config:"; PDict c] in
  let bye := [PStr (newline ++ "Autocommit watcher stopped by user.")] in
  watch fuel s initial_last_commit_time (stdout_write line w1) = (Raise r, w2, t2) ->
  match r with
  | KeyboardInterrupt =>
      main fuel w
      = (Ok Stopped, stdout_write bye w2, (tr ++ EPrint line :: t2 ++ [EPrint bye])%list) /\
      exit_status (fst (fst (main fuel w))) = Some 0
  | _ => main fuel w = (Raise r, w2, (tr ++ EPrint line :: t2)%list)
  end.
Proof.
  intros Hload Hen Hd Hdb s line bye Hw.
  rewrite (main_watches_from_initial fuel w w1 c tr d db Hload Hen Hd Hdb).
  cbv zeta. fold s. fold line. rewrite Hw.
  destruct r; [|reflexivity|reflexivity]. split; reflexivity.
Qed.

(** X9. When [float()] rejects the configured [delay_seconds], or accepts it
    and rejects [debounce_seconds], [main] raises that exception right after
    printing the configuration: no command is run, the loop is not entered
    and the process ends with status 1.  [float()] rejects [null], arrays
    and objects in every case. *)
Theorem bad_duration_stops_startup
  (fuel : nat) (w w1 : W) (c : pydict) (tr : list event) (e : exception) :
  load_config w = (Ok c, w1, tr) ->
  truthy (dict_get_default c k_enabled (PBool true)) = true ->
  py_float (dict_get_default c k_delay_seconds (PInt 2)) = inl e \/
  ((exists d, py_float (dict_get_default c k_delay_seconds (PInt 2)) = inr d) /\
   py_float (dict_get_default c k_debounce_seconds (PInt 5)) = inl e) ->
  let line := [PStr "Auto-commit config:"; PDict c] in
  main fuel w = (Raise (Error e), stdout_write line w1, (tr ++ [EPrint line])%list) /\
  commands_run (snd (main fuel w)) = [] /\
  exit_status (fst (fst (main fuel w))) = Some 1 /\
  forall v, (v = PNone \/ (exists l, v = PList l) \/ (exists m, v = PDict m)) ->
            exists e', py_float v = inl e' /\ exc_cls e' = TypeError.
Proof.
  intros Hload Hen Hbad line.
  assert (Hmain : main fuel w
                  = (Raise (Error e), stdout_write line w1, (tr ++ [EPrint line])%list)).
  { unfold main. rewrite bind_unfold, Hload. cbv beta iota zeta.
    unfold print at 1. rewrite bind_unfold. cbv beta iota zeta.
    rewrite Hen. cbn [negb]. rewrite bind_unfold.
    destruct Hbad as [Hd|[[d Hd] Hdb]].
    - rewrite Hd. reflexivity.
    - rewrite Hd. cbn [lift]. unfold ret at 1. cbv beta iota zeta.
      rewrite bind_unfold, Hdb. reflexivity. }
  split; [exact Hmain|]. rewrite Hmain. cbn [fst snd].
  split; [|split; [reflexivity|]].
  - rewrite commands_run_app.
    pose proof (load_config_runs_nothing w) as R. rewrite Hload in R.
    cbn [snd] in R. rewrite R. reflexivity.
  - intros v [->|[[l ->]|[m ->]]]; eexists; split; reflexivity.
Qed.


(** X11. With no configuration file, [main] does not fail at start-up: it
    prints the defaults and enters the loop with a delay of 2 seconds, a
    debounce of 5 seconds, the branch [main] and the push enabled,
    [last_commit_time] at its initial value. *)
Theorem no_file_enters_loop_with_defaults
  (fuel : nat) (w w1 : W) (e : exception) :
  open_json_load CONFIG_PATH w = (inl e, w1) ->
  is_file_not_found e = true ->
  let line := [PStr "Auto-commit config:"; PDict DEFAULT_CONFIG] in
  let bye := [PStr (newline ++ "Autocommit watcher stopped by user.")] in
  let s := mkSettings DEFAULT_CONFIG (float_of_Z 2) (float_of_Z 5) (PStr "main")
                      true true in
  main fuel w =
  match watch fuel s initial_last_commit_time (stdout_write line w1) with
  | (Ok t, w2, t2) => (Ok (Running t), w2, EOpen CONFIG_PATH :: EPrint line :: t2)
  | (Raise KeyboardInterrupt, w2, t2) =>
      (Ok Stopped, stdout_write bye w2,
       EOpen CONFIG_PATH :: EPrint line :: (t2 ++ [EPrint bye])%list)
  | (Raise r, w2, t2) => (Raise r, w2, EOpen CONFIG_PATH :: EPrint line :: t2)
  end.
Proof.
  intros Hopen Hnf line bye s.
  assert (Hload : load_config w = (Ok DEFAULT_CONFIG, w1, [EOpen CONFIG_PATH])).
  { rewrite load_config_unfold, Hopen. cbv beta iota zeta. rewrite Hnf. reflexivity. }
  rewrite (main_watches_from_initial fuel w w1 DEFAULT_CONFIG [EOpen CONFIG_PATH]
             (float_of_Z 2) (float_of_Z 5) Hload eq_refl eq_refl eq_refl).
  reflexivity.
Qed.

End Startup.

(** * More on the configuration *)

Lemma dict_keys_set_str (d : pydict) (s : string) (v : pyval) :
  (In (PStr s) (dict_keys d) /\ dict_keys (dict_set d (PStr s) v) = dict_keys d) \/
  (~ In (PStr s) (dict_keys d) /\
   dict_keys (dict_set d (PStr s) v) = (dict_keys d ++ [PStr s])%list).
Proof.
  induction d as [|[k' v'] d IH]; cbn [dict_set dict_keys map fst].
  - right. split; [intros []|reflexivity].
  - destruct (key_eqb k' (PStr s)) eqn:E.
    + apply key_eqb_str_inv in E. subst k'. left. split; [left; reflexivity|reflexivity].
    + assert (N : k' <> PStr s).
      { intro H. subst k'. rewrite key_eqb_str_refl in E. discriminate. }
      fold (dict_keys d). fold (dict_keys (dict_set d (PStr s) v)).
      destruct IH as [[Hin Hk]|[Hn Hk]].
      * left. split; [right; exact Hin|]. cbn [map fst]. fold (dict_keys d).
        fold (dict_keys (dict_set d (PStr s) v)). rewrite Hk. reflexivity.
      * right. split; [intros [H|H]; [exact (N H)|exact (Hn H)]|].
        cbn [map fst]. fold (dict_keys d).
        fold (dict_keys (dict_set d (PStr s) v)). rewrite Hk. reflexivity.
Qed.

(** Merging items with string keys appends the keys the target lacks and
    moves none. *)
Lemma update_from_items_appends (items : list (pyval * pyval)) (d : pydict) :
  (forall k, In k (dict_keys items) -> exists s, k = PStr s) ->
  exists extra,
    dict_keys (update_from_items d items) = (dict_keys d ++ extra)%list /\
    forall k, In k extra -> In k (dict_keys items) /\ ~ In k (dict_keys d).
Proof.
  revert d. induction items as [|[k' v] items IH]; intros d Hs.
  - exists []. split; [symmetry; apply app_nil_r|intros k []].
  - destruct (Hs k') as [s ->]; [left; reflexivity|].
    destruct (IH (dict_set d (PStr s) v)) as (extra & Hk & Hx).
    { intros k Hk. apply Hs. right. exact Hk. }
    cbn [update_from_items fold_left fst snd]. fold (update_from_items (dict_set d (PStr s) v) items).
    destruct (dict_keys_set_str d s v) as [[Hin E]|[Hn E]]; rewrite E in Hk, Hx.
    + exists extra. split; [exact Hk|].
      intros k Hin'. destruct (Hx k Hin') as [A B]. split; [right; exact A|exact B].
    + exists (PStr s :: extra). split.
      * rewrite Hk, <- app_assoc. reflexivity.
      * intros k [<-|Hin'].
        -- split; [left; reflexivity|exact Hn].
        -- destruct (Hx k Hin') as [A B]. split; [right; exact A|].
           intro C. apply B. apply in_or_app. left. exact C.
Qed.

Section LoaderMore.

Context {W : Type} {P : Platform W}.

(** X12. When the file decodes to a JSON object, whatever its keys,
    [load_config] returns without printing: every key has the file's value
    if the file has it and its default otherwise, the seven default keys
    keep their places, and the keys the defaults do not have are kept,
    appended after them. *)
Theorem load_config_keeps_unknown_keys
  (items : list (pyval * pyval)) (w w1 : W) :
  open_json_load CONFIG_PATH w = (inr (PDict items), w1) ->
  (forall k, In k (dict_keys items) -> exists s, k = PStr s) ->
  exists d extra,
    load_config w = (Ok d, w1, [EOpen CONFIG_PATH]) /\
    (forall k, dict_get d k = defaults_overridden_by items k) /\
    dict_keys d = (dict_keys DEFAULT_CONFIG ++ extra)%list /\
    forall k, In k extra ->
              In k (dict_keys items) /\ ~ In k (dict_keys DEFAULT_CONFIG).
Proof.
  intros Hopen Hs.
  destruct (update_from_items_appends items DEFAULT_CONFIG Hs) as (extra & Hk & Hx).
  exists (update_from_items DEFAULT_CONFIG items), extra.
  rewrite load_config_unfold, Hopen. cbv zeta. cbn [dict_update].
  split; [reflexivity|]. split; [|split; [exact Hk|exact Hx]].
  intro k. unfold defaults_overridden_by. apply update_from_items_get. exact Hs.
Qed.

(** X13. When the file decodes to something that is not an object:
    [null], a boolean or a number makes [dict.update] raise [TypeError],
    which is printed, and the result is the defaults; an empty array or an
    empty string merges nothing, and the result is the defaults with
    nothing printed. *)
Theorem load_config_not_an_object (v : pyval) (w w1 : W) :
  open_json_load CONFIG_PATH w = (inr v, w1) ->
  (json_scalar v = true ->
   exists e,
     exc_cls e = TypeError /\
     load_config w
     = (Ok DEFAULT_CONFIG, stdout_write (failure_line e) w1,
        [EOpen CONFIG_PATH; EPrint (failure_line e)])) /\
  (v = PList [] \/ v = PStr EmptyString ->
   load_config w = (Ok DEFAULT_CONFIG, w1, [EOpen CONFIG_PATH])).
Proof.
  intro Hopen. rewrite load_config_unfold, Hopen. cbv zeta. split.
  - intro Hsc. destruct v; try discriminate Hsc; cbn [dict_update];
      eexists; (split; [|reflexivity]); reflexivity.
  - intros [->| ->]; reflexivity.
Qed.

End LoaderMore.

Section Flags.

Context {W : Type} {P : Platform W}.

Lemma commit_msg_ignores_include_untracked (c : pydict) (v : pyval) (dt : datetime) :
  commit_msg (dict_set c k_include_untracked v) dt = commit_msg c dt.
Proof.
  unfold commit_msg, dict_get_default, k_include_untracked.
  rewrite dict_get_set_str. reflexivity.
Qed.

Lemma iteration_ignores_include_untracked
  (s : settings) (v : pyval) (b : bool) (lct : spec_float) (w : W) :
  iteration (mkSettings (dict_set (cfg s) k_include_untracked v) (delay s)
                        (debounce s) (branch s) (push s) b) lct w
  = iteration s lct w.
Proof.
  rewrite !iteration_unfold. unfold turn_end. cbn [cfg delay debounce branch push].
  destruct (has_worktree_changes w) as [[[[|]|e] w1] tr1]; try reflexivity.
  cbv zeta.
  destruct (flt (fsub (wall_clock w1) lct) (debounce s)); [reflexivity|].
  destruct (negb (fst (run_value add_cmd ROOT w1) =? 0)); [reflexivity|].
  destruct (negb (fst (run_value diff_cmd ROOT (run_world add_cmd ROOT w1)) =? 0));
    [reflexivity|].
  destruct (negb (PyStr.nonempty _)); [reflexivity|].
  rewrite !commit_and_push_unfold. cbn [cfg delay debounce branch push].
  rewrite commit_msg_ignores_include_untracked. reflexivity.
Qed.

(** X14. [include_untracked] is read and never used: whatever the key holds
    in the configuration and whatever the flag is, the loop does the same,
    turn after turn; the staging command is [git add -A] in every case. *)
Theorem include_untracked_is_ignored
  (s : settings) (v : pyval) (b : bool) (n : nat) :
  forall (lct : spec_float) (w : W),
    watch n (mkSettings (dict_set (cfg s) k_include_untracked v) (delay s)
                        (debounce s) (branch s) (push s) b) lct w
    = watch n s lct w.
Proof.
  induction n as [|n IH]; intros lct w; [reflexivity|].
  rewrite !watch_unfold, iteration_ignores_include_untracked.
  destruct (iteration s lct w) as [[[t|e] w1] t1]; [|reflexivity].
  rewrite IH. reflexivity.
Qed.

(** X15. A debounce that is not a number holds nothing back: with
    [debounce_seconds] decoded to NaN, every detected change goes on to
    staging, whatever the clock and [last_commit_time] are. *)
Theorem nan_debounce_holds_nothing_back
  (s : settings) (lct : spec_float) (w w1 : W) (tr1 : list event) :
  is_nan (debounce s) = true ->
  has_worktree_changes w = (Ok true, w1, tr1) ->
  exists rest,
    snd (iteration s lct w)
    = (run_trace status_cmd ROOT ++ run_trace add_cmd ROOT ++ rest)%list.
Proof.
  intros Hn H. eapply iteration_stages_when_due; [exact H|].
  destruct (debounce s); try discriminate Hn.
  unfold flt, SFltb. destruct (fsub (wall_clock w1) lct); reflexivity.
Qed.

End Flags.

(** * More statements on the scripted platform *)

Lemma idle_turn_witness :
  commands_run (snd (iteration Scenario.defaults fzero Cases.status_fails))
  = [status_cmd] /\
  sleeps (snd (iteration Scenario.defaults fzero Cases.status_fails))
  = [Scenario.f 2].
Proof.
  edestruct (idle_turn Scenario.defaults fzero Cases.status_fails) as (_ & Hc & Hs & _).
  - vm_compute. reflexivity.
  - split; [exact Hc|exact Hs].
Defined.



Lemma run_text_is_stripped_witness :
  PyStr.strip (snd (run_value status_cmd ROOT Scenario.busy)) = "M notes.txt".
Proof.
  rewrite (proj1 (run_text_is_stripped status_cmd ROOT Scenario.busy)).
  - vm_compute. reflexivity.
  - vm_compute. reflexivity.
Defined.

Lemma completed_turns_poll_and_sleep_witness :
  sleeps (snd (watch 3 Scenario.defaults fzero Cases.quiet))
  = [Scenario.f 2; Scenario.f 2; Scenario.f 2].
Proof.
  pose proof (fun t w' tr =>
                completed_turns_poll_and_sleep Scenario.defaults 3 fzero t
                  Cases.quiet w' tr) as H.
  edestruct H as [Hs _].
  - vm_compute. reflexivity.
  - vm_compute. vm_compute in Hs. exact Hs.
Defined.

Lemma only_interrupt_is_caught_witness :
  fst (fst (main 5 Cases.interrupted)) = Ok Stopped /\
  exit_status (fst (fst (main 5 Cases.interrupted))) = Some 0.
Proof.
  pose proof (fun w2 t2 =>
                only_interrupt_is_caught 5 Cases.interrupted Cases.interrupted w2
                  DEFAULT_CONFIG [EOpen CONFIG_PATH] t2
                  (Scenario.f 2) (Scenario.f 5) KeyboardInterrupt
                  eq_refl eq_refl eq_refl eq_refl) as H.
  cbv zeta in H. edestruct H as [Hm He].
  - vm_compute. reflexivity.
  - split; [rewrite Hm; reflexivity|exact He].
Defined.

Lemma bad_duration_stops_startup_witness :
  exists e w' tr,
    main 5 Cases.null_delay = (Raise (Error e), w', tr) /\
    exc_cls e = TypeError /\ commands_run tr = [].
Proof.
  edestruct (bad_duration_stops_startup 5 Cases.null_delay) as (H & Hc & _ & _).
  - vm_compute. reflexivity.
  - vm_compute. reflexivity.
  - left. vm_compute. reflexivity.
  - do 3 eexists. split; [exact H|]. split; [reflexivity|].
    rewrite H in Hc. exact Hc.
Defined.


Lemma no_file_enters_loop_with_defaults_witness :
  exists t w' tr,
    main 1 Scenario.busy = (Ok (Running t), w', tr) /\ t = Scenario.f 1004.
Proof.
  pose proof (no_file_enters_loop_with_defaults 1 Scenario.busy Scenario.busy
                (mkExc FileNotFoundError "[Errno 2] No such file or directory")
                eq_refl eq_refl) as H.
  cbv zeta in H. rewrite H. vm_compute. do 3 eexists. split; reflexivity.
Defined.

Lemma load_config_keeps_unknown_keys_witness :
  exists d,
    fst (fst (load_config Cases.unknown_key)) = Ok d /\
    dict_get d (PStr "editor") = Some (PStr "vim") /\
    dict_get d k_push = Some (PBool false) /\
    dict_get d k_branch = Some (PStr "main").
Proof.
  edestruct (load_config_keeps_unknown_keys
               [(PStr "editor", PStr "vim"); (k_push, PBool false)]
               Cases.unknown_key)
    as (d & extra & H & Hg & _).
  - reflexivity.
  - cbn. intros k [<-|[<-|[]]]; eexists; reflexivity.
  - exists d. rewrite H. split; [reflexivity|]. rewrite !Hg. vm_compute. auto.
Defined.

Lemma load_config_not_an_object_witness :
  exists e w',
    load_config Cases.number_config
    = (Ok DEFAULT_CONFIG, w', [EOpen CONFIG_PATH; EPrint (failure_line e)]) /\
    exc_text e = "'int' object is not iterable".
Proof.
  edestruct (load_config_not_an_object (PInt 42) Cases.number_config) as [Hs _].
  - reflexivity.
  - destruct (Hs eq_refl) as (e & Hc & H).
    exists e. eexists. split; [exact H|].
    rewrite load_config_unfold in H. vm_compute in H.
    destruct e as [cls text]. inversion H. reflexivity.
Defined.

Lemma nan_debounce_holds_nothing_back_witness :
  exists more,
    commands_run (snd (iteration Cases.nan_debounce (Scenario.f 1000) Scenario.busy))
    = status_cmd :: add_cmd :: more.
Proof.
  edestruct (nan_debounce_holds_nothing_back Cases.nan_debounce (Scenario.f 1000)
               Scenario.busy) as [rest H].
  - reflexivity.
  - vm_compute. reflexivity.
  - rewrite H. exists (commands_run rest). reflexivity.
Defined.
